(** * Remote switch firmware: shallow embedding and checked properties

    The development embeds the two core modules of the firmware,
    [Core/TCP_client/TCP_client.c] and [Core/Remote_switch/Remote_switch.c],
    as state-passing functions over a record of the modules' static
    variables, together with a small model of the FreeRTOS objects they
    use (counting semaphore, bounded queue, task table).

    Conventions:
    - C integers are [Z]; an unsigned w-bit value is reduced modulo [2^w]
      where the source can wrap.
    - A handle is an [option]: [None] is the C [NULL].
    - A function of the firmware is a computation [M A]: it maps the state
      to [Done a s'] (returned [a]), [Abort] (a kernel assertion failed) or
      [Blocked] (the calling task is still waiting when the modelled
      schedule ends). *)

From Stdlib Require Import ZArith List Bool Lia.
Import ListNotations.
Local Open Scope Z_scope.

(** ** FreeRTOS objects *)

Module FreeRTOS.

Definition TickType_t := Z.
Definition BaseType_t := Z.

Definition pdFALSE : BaseType_t := 0.
Definition pdTRUE : BaseType_t := 1.
Definition pdPASS : BaseType_t := pdTRUE.
Definition pdFAIL : BaseType_t := pdFALSE.
Definition errQUEUE_EMPTY : BaseType_t := 0.
Definition errQUEUE_FULL : BaseType_t := 0.
Definition errCOULD_NOT_ALLOCATE_REQUIRED_MEMORY : BaseType_t := -1.

(** A counting semaphore. [holder_gives_in] describes contention: when
    the count is zero because another task holds the token, it is the
    number of ticks after which that task gives it back ([None]: no give
    is pending). *)
Record Semaphore := mkSemaphore {
  uxMaxCount : Z;
  uxCount : Z;
  holder_gives_in : option TickType_t
}.

Definition xSemaphoreCreateCounting (uxMax uxInitial : Z) : Semaphore :=
  mkSemaphore uxMax uxInitial None.

(** Take with a bounded wait: immediate when the count is positive;
    otherwise the caller blocks and obtains the token only if the holder
    gives it within [xTicksToWait]. *)
Definition xSemaphoreTake (sem : Semaphore) (xTicksToWait : TickType_t)
  : BaseType_t * Semaphore :=
  if 0 <? uxCount sem then
    (pdTRUE, mkSemaphore (uxMaxCount sem) (uxCount sem - 1) (holder_gives_in sem))
  else
    match holder_gives_in sem with
    | Some d =>
        if d <=? xTicksToWait
        then (pdTRUE, mkSemaphore (uxMaxCount sem) 0 None)
        else (pdFALSE, mkSemaphore (uxMaxCount sem) (uxCount sem)
                         (Some (d - xTicksToWait)))
    | None => (pdFALSE, sem)
    end.

(** Give fails when the count already is at its maximum. *)
Definition xSemaphoreGive (sem : Semaphore) : BaseType_t * Semaphore :=
  if uxCount sem <? uxMaxCount sem then
    (pdTRUE, mkSemaphore (uxMaxCount sem) (uxCount sem + 1) (holder_gives_in sem))
  else (pdFALSE, sem).

Definition sem_wf (sem : Semaphore) : Prop :=
  0 <= uxCount sem <= uxMaxCount sem /\ 0 < uxMaxCount sem.

(** Whether a take with the given wait obtains the token. *)
Definition acquired_within (sem : Semaphore) (xTicksToWait : TickType_t) : bool :=
  fst (xSemaphoreTake sem xTicksToWait) =? pdTRUE.

(** A bounded FIFO queue. [reader_takes_in] describes the consumer while
    a sender is blocked on a full queue: the number of ticks after which
    the reading task removes the head ([None]: it does not). *)
Record Queue (A : Type) := mkQueue {
  uxLength : Z;
  items : list A;
  reader_takes_in : option TickType_t
}.
Arguments mkQueue {A}.
Arguments uxLength {A}.
Arguments items {A}.
Arguments reader_takes_in {A}.

Definition xQueueCreate {A} (uxQueueLength : Z) : Queue A :=
  mkQueue uxQueueLength [] None.

Definition queue_full {A} (q : Queue A) : bool :=
  uxLength q <=? Z.of_nat (length (items q)).

(** Send to the back with a bounded wait. *)
Definition xQueueSend {A} (q : Queue A) (item : A) (xTicksToWait : TickType_t)
  : BaseType_t * Queue A :=
  if queue_full q then
    match reader_takes_in q with
    | Some d =>
        if d <=? xTicksToWait
        then (pdPASS, mkQueue (uxLength q) (tl (items q) ++ [item]) None)
        else (errQUEUE_FULL, mkQueue (uxLength q) (items q)
                               (Some (d - xTicksToWait)))
    | None => (errQUEUE_FULL, q)
    end
  else (pdPASS, mkQueue (uxLength q) (items q ++ [item]) (reader_takes_in q)).

(** Receive from the front. Senders are separate steps of the model, so
    an empty queue stays empty for the duration of one call. *)
Definition xQueueReceive {A} (q : Queue A) (xTicksToWait : TickType_t)
  : BaseType_t * option A * Queue A :=
  match items q with
  | x :: rest => (pdPASS, Some x, mkQueue (uxLength q) rest (reader_takes_in q))
  | [] => (errQUEUE_EMPTY, None, q)
  end.

(** The task table and the heap. [free_allocs] is the number of kernel
    objects (task, queue, semaphore) that can still be allocated. *)
Record Kernel := mkKernel {
  live_tasks : list nat;
  next_task : nat;
  free_allocs : nat
}.

Definition kernel_alloc (k : Kernel) : option Kernel :=
  match free_allocs k with
  | O => None
  | S n => Some (mkKernel (live_tasks k) (next_task k) n)
  end.

(** Creation writes the handle only when it succeeds. *)
Definition xTaskCreate (k : Kernel) : BaseType_t * option nat * Kernel :=
  match kernel_alloc k with
  | None => (errCOULD_NOT_ALLOCATE_REQUIRED_MEMORY, None, k)
  | Some k1 =>
      (pdPASS, Some (next_task k),
       mkKernel (next_task k :: live_tasks k1) (S (next_task k)) (free_allocs k1))
  end.

Definition task_alive (k : Kernel) (t : nat) : bool :=
  existsb (Nat.eqb t) (live_tasks k).

(** Deleting a task that is not alive is a use of a stale handle: the
    model reports it as a failure ([None]). *)
Definition vTaskDelete (k : Kernel) (t : nat) : option Kernel :=
  if task_alive k t then
    Some (mkKernel (filter (fun u => negb (Nat.eqb t u)) (live_tasks k))
                   (next_task k) (S (free_allocs k)))
  else None.

End FreeRTOS.
Import FreeRTOS.

(** ** Outcomes and the state monad of the firmware *)

Inductive Outcome (St A : Type) : Type :=
| Done (a : A) (s : St)
| Abort
| Blocked.
Arguments Done {St A}.
Arguments Abort {St A}.
Arguments Blocked {St A}.

Definition M (St A : Type) : Type := St -> Outcome St A.

Definition ret {St A} (a : A) : M St A := fun s => Done a s.

Definition bind {St A B} (m : M St A) (k : A -> M St B) : M St B :=
  fun s =>
    match m s with
    | Done a s1 => k a s1
    | Abort => Abort
    | Blocked => Blocked
    end.

Declare Scope fw_scope.
Delimit Scope fw_scope with fw.
Notation "x <- m ;; k" := (bind m (fun x => k))
  (at level 61, m at next level, right associativity) : fw_scope.
Notation "m ;;; k" := (bind m (fun _ => k))
  (at level 61, right associativity) : fw_scope.
Local Open Scope fw_scope.

(** ** Configuration and data types *)

(** System_lights.h *)
Definition MAX_DUTY_CYCLE_PERC : Z := 100.
Definition MIN_DUTY_CYCLE_PERC : Z := 20.

Inductive LED_ID := LED_0 | NUM_OF_LEDS.

(** Button_physical_connection.h: [Button_ID] is a C enumeration whose
    enumerators take consecutive values from zero; the handler switches on
    [BUTTON_0] and [BUTTON_1]. *)
Definition Button_ID := Z.
Definition BUTTON_0 : Button_ID := 0.
Definition BUTTON_1 : Button_ID := 1.

(** TCP_client.h *)
Inductive TCP_client_return :=
| CORE_TCP_CLIENT_OK
| CORE_TCP_CLIENT_INIT_ERR
| CORE_TCP_CLIENT_INIT_QUEUE_ERR
| CORE_TCP_CLIENT_INIT_SEMAPHORE_ERR
| CORE_TCP_CLIENT_DE_INIT_ERR
| CORE_TCP_CLIENT_MODULE_WAS_NOT_INIT_ERR
| CORE_TCP_CLIENT_CANT_INSERT_IN_QUEUE_ERR
| CORE_TCP_CLIENT_SEND_TIME_OUT_WARN.

(** Modelled from the spec: Network_config.h, which declares the command
    record, is not among the sources. The wire record is
    [{ actuator_id: enum, action: enum, level: unsigned-integer(0-100) }];
    the handler names the fields [ID], [action] and [pwm] and the actions
    [TOOGLE_LED] and [SET_PWM]. *)
Inductive TCP_action := TOOGLE_LED | SET_PWM.

Record TCP_COMMAND_TYPE := mkCmd {
  ID : LED_ID;
  action : TCP_action;
  pwm : Z
}.

(** TCP_client.c *)
Definition RX_QUEUE_LEN : Z := 10.

Definition TaskHandle_t := option nat.
Definition QueueHandle_t := option (Queue TCP_COMMAND_TYPE).
Definition SemaphoreHandle_t := option Semaphore.

(** Modelled from the spec: WiFi.h and WiFi.c are not among the sources.
    The transport bring-up collaborator exposes connect and disconnect
    operations returning a result and delivers link and address events;
    here its results are inputs held in the state, and connection requests
    are counted. [CORE_WIFI_OK] is the first code of its return list. *)
Definition WiFi_return := Z.
Definition CORE_WIFI_OK : WiFi_return := 0.

Record WiFi_driver := mkWiFi {
  WiFi_init_result : WiFi_return;
  de_init_WiFi_result : WiFi_return;
  connect_requests : nat
}.

Inductive wifi_event_t :=
| WIFI_EVENT_STA_START
| WIFI_EVENT_STA_DISCONNECTED
| WIFI_EVENT_OTHER (id : Z).

Inductive ip_event_t :=
| IP_EVENT_STA_GOT_IP
| IP_EVENT_OTHER (id : Z).

Inductive Event :=
| WiFi_event (event_id : wifi_event_t)
| IP_event (event_id : ip_event_t).

(** The static variables of TCP_client.c, followed by the environment the
    module acts on: kernel, WiFi driver and the records written to the
    gateway. *)
Record State := mkState {
  send_cmd_task_handler : TaskHandle_t;
  cmd_TX_queue : QueueHandle_t;
  connection_state : bool;
  connection_state_sempahore : SemaphoreHandle_t;
  module_was_initialized : bool;
  kernel : Kernel;
  wifi : WiFi_driver;
  wire : list TCP_COMMAND_TYPE
}.

Definition with_task_handler (h : TaskHandle_t) (s : State) : State :=
  mkState h (cmd_TX_queue s) (connection_state s) (connection_state_sempahore s)
          (module_was_initialized s) (kernel s) (wifi s) (wire s).
Definition with_queue (q : QueueHandle_t) (s : State) : State :=
  mkState (send_cmd_task_handler s) q (connection_state s)
          (connection_state_sempahore s) (module_was_initialized s)
          (kernel s) (wifi s) (wire s).
Definition with_connection_state (b : bool) (s : State) : State :=
  mkState (send_cmd_task_handler s) (cmd_TX_queue s) b
          (connection_state_sempahore s) (module_was_initialized s)
          (kernel s) (wifi s) (wire s).
Definition with_semaphore (m : SemaphoreHandle_t) (s : State) : State :=
  mkState (send_cmd_task_handler s) (cmd_TX_queue s) (connection_state s) m
          (module_was_initialized s) (kernel s) (wifi s) (wire s).
Definition with_initialized (b : bool) (s : State) : State :=
  mkState (send_cmd_task_handler s) (cmd_TX_queue s) (connection_state s)
          (connection_state_sempahore s) b (kernel s) (wifi s) (wire s).
Definition with_kernel (k : Kernel) (s : State) : State :=
  mkState (send_cmd_task_handler s) (cmd_TX_queue s) (connection_state s)
          (connection_state_sempahore s) (module_was_initialized s)
          k (wifi s) (wire s).
Definition with_wifi (w : WiFi_driver) (s : State) : State :=
  mkState (send_cmd_task_handler s) (cmd_TX_queue s) (connection_state s)
          (connection_state_sempahore s) (module_was_initialized s)
          (kernel s) w (wire s).
Definition with_wire (l : list TCP_COMMAND_TYPE) (s : State) : State :=
  mkState (send_cmd_task_handler s) (cmd_TX_queue s) (connection_state s)
          (connection_state_sempahore s) (module_was_initialized s)
          (kernel s) (wifi s) l.

(** Static storage is zero-initialised at power-on. *)
Definition power_on (k : Kernel) (w : WiFi_driver) : State :=
  mkState None None false None false k w [].

Definition FW := M State.

Definition get {A} (f : State -> A) : FW A := fun s => Done (f s) s.
Definition put (f : State -> State) : FW unit := fun s => Done tt (f s).

(** Partial-correctness triples over [FW]: from a state satisfying [P], if
    the computation returns, the result and the final state satisfy [Q]. *)
Definition hoare {A} (P : State -> Prop) (m : FW A) (Q : A -> State -> Prop) : Prop :=
  forall s a s1, P s -> m s = Done a s1 -> Q a s1.

Definition preserves {A} (I : State -> Prop) (m : FW A) : Prop :=
  hoare I m (fun _ => I).

Definition initialized (s : State) : Prop := module_was_initialized s = true.

Definition final_state {A} (o : Outcome State A) (otherwise : State) : State :=
  match o with
  | Done _ s => s
  | Abort | Blocked => otherwise
  end.

(** ** Remote_switch.c: static variables and the button driver *)

Module Switch.

(** Modelled from the spec: Button.h and Button.c are not among the
    sources. The button hardware collaborator exposes per-button init and
    deinit returning a result; here the results are inputs held in the
    state. [BSP_BUTTON_OK] is the first code of its return list. *)
Definition Button_return := Z.
Definition BSP_BUTTON_OK : Button_return := 0.

Record Button_driver := mkButtons {
  init_BSP_button_module_result : Button_return;
  init_button_result : Button_return;
  de_init_button_result : Button_return
}.

(** Remote_switch.h *)
Inductive Remote_switch_return :=
| CORE_REMOTE_SWITCH_OK
| CORE_REMOTE_SWITCH_INIT_ERR
| CORE_REMOTE_SWITCH_DE_INIT_ERR
| CORE_REMOTE_SWITCH_START_CLIENT_ERR
| CORE_REMOTE_SWITCH_STOP_CLIENT_ERR.

(** Remote_switch.c *)
Record remote_switch_info := mkInfo {
  button : Button_ID;
  task_handler : TaskHandle_t;
  semaphore : SemaphoreHandle_t
}.

(** The static variables of Remote_switch.c, the button driver, and the
    state of the TCP client, whose kernel is the kernel of the system. *)
Record System := mkSystem {
  remote_switches_infos : list remote_switch_info;
  pressed_button : Button_ID;
  buttons : Button_driver;
  tcp : State
}.

Definition with_infos (l : list remote_switch_info) (sys : System) : System :=
  mkSystem l (pressed_button sys) (buttons sys) (tcp sys).
Definition with_pressed_button (b : Button_ID) (sys : System) : System :=
  mkSystem (remote_switches_infos sys) b (buttons sys) (tcp sys).
Definition with_tcp (s : State) (sys : System) : System :=
  mkSystem (remote_switches_infos sys) (pressed_button sys) (buttons sys) s.

Definition with_task (h : TaskHandle_t) (i : remote_switch_info)
  : remote_switch_info :=
  mkInfo (button i) h (semaphore i).
Definition with_sem (m : SemaphoreHandle_t) (i : remote_switch_info)
  : remote_switch_info :=
  mkInfo (button i) (task_handler i) m.

(** Static storage at power-on: an array of [NUM_OF_BUTTONS] zeroed
    entries. *)
Definition power_on (NUM_OF_BUTTONS : nat) (b : Button_driver) (s : State)
  : System :=
  mkSystem (repeat (mkInfo 0 None None) NUM_OF_BUTTONS) 0 b s.

End Switch.

Fixpoint set_nth {A} (n : nat) (x : A) (l : list A) : list A :=
  match l, n with
  | [], _ => []
  | _ :: rest, O => x :: rest
  | y :: rest, S m => y :: set_nth m x rest
  end.

Definition SW := M Switch.System.

Definition crash {St A} : M St A := fun _ => Abort.

(** A call of the TCP client made from Remote_switch.c. *)
Definition lift_tcp {A} (m : FW A) : SW A :=
  fun sys =>
    match m (Switch.tcp sys) with
    | Done a s => Done a (Switch.with_tcp s sys)
    | Abort => Abort
    | Blocked => Blocked
    end.

(** Access to [remote_switches_infos[ID]]; an index outside the array is
    undefined in C and aborts here. *)
Definition info_at (ID : Button_ID) : SW Switch.remote_switch_info :=
  fun sys =>
    match nth_error (Switch.remote_switches_infos sys) (Z.to_nat ID) with
    | Some i => if 0 <=? ID then Done i sys else Abort
    | None => Abort
    end.

Definition update_info_at (ID : Button_ID)
           (f : Switch.remote_switch_info -> Switch.remote_switch_info)
  : SW unit :=
  i <- info_at ID ;;
  fun sys =>
    Done tt (Switch.with_infos
               (set_nth (Z.to_nat ID) (f i) (Switch.remote_switches_infos sys)) sys).

(** Relations between the states before and after a computation. *)
Definition frames {St A} (R : St -> St -> Prop) (m : M St A) : Prop :=
  forall s a s1, m s = Done a s1 -> R s s1.

(** What the event handlers and the connection state accessors leave
    alone: the queue, the flag and the records sent; a created semaphore
    stays created. *)
Definition handler_frame (s s1 : State) : Prop :=
  cmd_TX_queue s1 = cmd_TX_queue s /\
  module_was_initialized s1 = module_was_initialized s /\
  wire s1 = wire s /\
  (connection_state_sempahore s <> None -> connection_state_sempahore s1 <> None).

(** ** Sample configuration and states

    The ESP-IDF port (32-bit ticks, 100 Hz tick rate) with a one-byte
    level, and a few states of the module used to exercise the results. *)

Definition esp_portMAX_DELAY : TickType_t := 4294967295.
Definition esp_portTICK_PERIOD_MS : Z := 10.
Definition uint8_bits : Z := 8.

Definition sample_cmd : TCP_COMMAND_TYPE := mkCmd LED_0 SET_PWM 70.

(** What an uninitialised local may happen to hold. *)
Definition stale_cmd : TCP_COMMAND_TYPE := mkCmd NUM_OF_LEDS SET_PWM 173.

Definition sample_boot : State :=
  power_on (mkKernel [] 0 8) (mkWiFi CORE_WIFI_OK CORE_WIFI_OK 0).

Definition sample_connected : State :=
  mkState (Some 0%nat) (Some (xQueueCreate RX_QUEUE_LEN)) true
          (Some (xSemaphoreCreateCounting 1 1)) true
          (mkKernel [0%nat] 1 5) (mkWiFi CORE_WIFI_OK CORE_WIFI_OK 1) [].

Definition sample_disconnected : State :=
  with_connection_state false sample_connected.

(** The token is held by another task that does not give it back. *)
Definition held_semaphore : Semaphore := mkSemaphore 1 0 None.

Definition sample_token_held : State :=
  with_semaphore (Some held_semaphore) sample_connected.

Definition full_queue (reader : option TickType_t) : Queue TCP_COMMAND_TYPE :=
  mkQueue RX_QUEUE_LEN (repeat sample_cmd 10) reader.

Definition sample_queue_full (reader : option TickType_t) : State :=
  with_queue (Some (full_queue reader)) sample_connected.

Definition final_system {A} (o : Outcome Switch.System A) (otherwise : Switch.System)
  : Switch.System :=
  match o with
  | Done _ sys => sys
  | Abort | Blocked => otherwise
  end.

Definition sample_buttons : Switch.Button_driver :=
  Switch.mkButtons Switch.BSP_BUTTON_OK Switch.BSP_BUTTON_OK Switch.BSP_BUTTON_OK.

(** A started system of two buttons: task 1 is the dispatch task, task 0
    the worker; no press is pending. *)
Definition sample_system : Switch.System :=
  Switch.mkSystem
    [Switch.mkInfo 0 (Some 1%nat) (Some (mkSemaphore 1 0 None));
     Switch.mkInfo 0 None None]
    0 sample_buttons
    (with_kernel (mkKernel [1%nat; 0%nat] 2 5) sample_connected).

Definition sample_three_queued : State :=
  with_queue (Some (mkQueue RX_QUEUE_LEN [sample_cmd; stale_cmd; sample_cmd] None))
             sample_connected.

Definition sample_eight_queued : State :=
  with_queue (Some (mkQueue RX_QUEUE_LEN (repeat sample_cmd 8) None))
             sample_connected.

(** ** TCP_client.c *)

Section Firmware.

(** Port constants of the FreeRTOS configuration, and the width in bits of
    the unsigned [pwm] field of the command record (Network_config.h). *)
Variable portMAX_DELAY : TickType_t.
Variable portTICK_PERIOD_MS : Z.
Variable pwm_bits : Z.

Definition MAX_TIME_TO_WAIT_TO_SEND : TickType_t := 1000 / portTICK_PERIOD_MS.

(** *** Kernel calls on the module's objects

    A call on a [NULL] handle fails the kernel's assertion. *)

Definition take_connection_state_sempahore (xTicksToWait : TickType_t)
  : FW BaseType_t :=
  fun s =>
    match connection_state_sempahore s with
    | None => Abort
    | Some sem =>
        let (r, sem1) := xSemaphoreTake sem xTicksToWait in
        Done r (with_semaphore (Some sem1) s)
    end.

Definition give_connection_state_sempahore : FW BaseType_t :=
  fun s =>
    match connection_state_sempahore s with
    | None => Abort
    | Some sem =>
        let (r, sem1) := xSemaphoreGive sem in
        Done r (with_semaphore (Some sem1) s)
    end.

Definition create_queue (uxQueueLength : Z) : FW QueueHandle_t :=
  fun s =>
    match kernel_alloc (kernel s) with
    | None => Done None s
    | Some k => Done (Some (xQueueCreate uxQueueLength)) (with_kernel k s)
    end.

Definition create_counting_semaphore (uxMax uxInitial : Z) : FW SemaphoreHandle_t :=
  fun s =>
    match kernel_alloc (kernel s) with
    | None => Done None s
    | Some k =>
        Done (Some (xSemaphoreCreateCounting uxMax uxInitial)) (with_kernel k s)
    end.

Definition vSemaphoreDelete (h : SemaphoreHandle_t) : FW unit :=
  fun s =>
    match h with
    | None => Abort
    | Some _ =>
        Done tt (with_kernel (mkKernel (live_tasks (kernel s)) (next_task (kernel s))
                                       (S (free_allocs (kernel s)))) s)
    end.

Definition send_to_cmd_TX_queue (cmd : TCP_COMMAND_TYPE) (xTicksToWait : TickType_t)
  : FW BaseType_t :=
  fun s =>
    match cmd_TX_queue s with
    | None => Abort
    | Some q =>
        let (r, q1) := xQueueSend q cmd xTicksToWait in
        Done r (with_queue (Some q1) s)
    end.

Definition receive_from_cmd_TX_queue (xTicksToWait : TickType_t)
  : FW (BaseType_t * option TCP_COMMAND_TYPE) :=
  fun s =>
    match cmd_TX_queue s with
    | None => Abort
    | Some q =>
        let (r, q1) := xQueueReceive q xTicksToWait in
        Done r (with_queue (Some q1) s)
    end.

(** [xTaskCreate(cmd_TX_func, ..., &send_cmd_task_handler)] *)
Definition create_send_cmd_task : FW BaseType_t :=
  fun s =>
    match xTaskCreate (kernel s) with
    | (r, Some t, k) => Done r (with_task_handler (Some t) (with_kernel k s))
    | (r, None, k) => Done r (with_kernel k s)
    end.

Definition delete_task (t : nat) : FW unit :=
  fun s =>
    match vTaskDelete (kernel s) t with
    | Some k => Done tt (with_kernel k s)
    | None => Abort
    end.

(** *** The WiFi driver (WiFi.h) and the logging wrappers (Debug.h) *)

Definition WiFi_init : FW WiFi_return :=
  get (fun s => WiFi_init_result (wifi s)).

Definition de_init_WiFi : FW WiFi_return :=
  get (fun s => de_init_WiFi_result (wifi s)).

Definition esp_wifi_connect : FW unit :=
  put (fun s => with_wifi (mkWiFi (WiFi_init_result (wifi s))
                                  (de_init_WiFi_result (wifi s))
                                  (S (connect_requests (wifi s)))) s).

Definition core_WiFi_LOG (r : WiFi_return) : WiFi_return := r.

Definition core_TCP_client_LOG (r : TCP_client_return) : TCP_client_return := r.

(** *** Connection state accessors *)

Definition get_connection_state (time_to_wait : TickType_t) : FW bool :=
  taken <- take_connection_state_sempahore time_to_wait ;;
  if taken =? pdTRUE then
    state <- get connection_state ;;
    give_connection_state_sempahore ;;;
    ret state
  else
    ret false.

Definition set_connection_state (time_to_wait : TickType_t) (state : bool)
  : FW bool :=
  taken <- take_connection_state_sempahore time_to_wait ;;
  if taken =? pdTRUE then
    put (with_connection_state state) ;;;
    given <- give_connection_state_sempahore ;;
    if negb (given =? pdTRUE) then ret false else ret true
  else
    ret false.

(** *** Event handlers *)

Definition WiFi_event_handler (event_id : wifi_event_t) : FW unit :=
  match event_id with
  | WIFI_EVENT_STA_START => esp_wifi_connect
  | WIFI_EVENT_STA_DISCONNECTED =>
      set_connection_state (portMAX_DELAY - 1) false ;;;
      h <- get send_cmd_task_handler ;;
      match h with
      | Some t => delete_task t
      | None => ret tt
      end ;;;
      esp_wifi_connect
  | WIFI_EVENT_OTHER _ => ret tt
  end.

Definition IP_event_handler (event_id : ip_event_t) : FW unit :=
  match event_id with
  | IP_EVENT_STA_GOT_IP =>
      set_connection_state (portMAX_DELAY - 1) true ;;;
      create_send_cmd_task ;;;
      ret tt
  | IP_EVENT_OTHER _ => ret tt
  end.

Definition handle_event (ev : Event) : FW unit :=
  match ev with
  | WiFi_event id => WiFi_event_handler id
  | IP_event id => IP_event_handler id
  end.

Fixpoint handle_events (evs : list Event) : FW unit :=
  match evs with
  | [] => ret tt
  | ev :: rest => handle_event ev ;;; handle_events rest
  end.

(** *** Initialisation

    [init_TCP_client] polls the connection state and sleeps between polls;
    the event loop task runs the handlers meanwhile. [sched] lists the
    events handled during each sleep; when it is exhausted and the state
    still reads false, the caller is still waiting. *)

Fixpoint wait_for_connection (sched : list (list Event)) : FW unit :=
  fun s =>
    match get_connection_state MAX_TIME_TO_WAIT_TO_SEND s with
    | Done true s1 => Done tt s1
    | Done false s1 =>
        match sched with
        | [] => Blocked
        | evs :: rest =>
            match handle_events evs s1 with
            | Done _ s2 => wait_for_connection rest s2
            | Abort => Abort
            | Blocked => Blocked
            end
        end
    | Abort => Abort
    | Blocked => Blocked
    end.

Definition init_TCP_client (sched : list (list Event)) : FW TCP_client_return :=
  put (with_task_handler None) ;;;
  q <- create_queue RX_QUEUE_LEN ;;
  put (with_queue q) ;;;
  match q with
  | None => ret CORE_TCP_CLIENT_INIT_QUEUE_ERR
  | Some _ =>
      sem <- create_counting_semaphore 1 1 ;;
      put (with_semaphore sem) ;;;
      match sem with
      | None =>
          vSemaphoreDelete sem ;;;
          ret CORE_TCP_CLIENT_INIT_SEMAPHORE_ERR
      | Some _ =>
          r <- WiFi_init ;;
          if negb (core_WiFi_LOG (Z.b2z (negb (r =? CORE_WIFI_OK))) =? 0) then
            ret CORE_TCP_CLIENT_INIT_ERR
          else
            wait_for_connection sched ;;;
            put (with_initialized true) ;;;
            ret CORE_TCP_CLIENT_OK
      end
  end.

Definition de_init_TCP_client : FW TCP_client_return :=
  put (with_connection_state false) ;;;
  r <- de_init_WiFi ;;
  if negb (core_WiFi_LOG r =? CORE_WIFI_OK) then
    ret CORE_TCP_CLIENT_DE_INIT_ERR
  else
    ret CORE_TCP_CLIENT_OK.

Definition send_message (cmd : TCP_COMMAND_TYPE) : FW TCP_client_return :=
  initialized <- get module_was_initialized ;;
  if negb initialized then
    ret CORE_TCP_CLIENT_MODULE_WAS_NOT_INIT_ERR
  else
    connected <- get_connection_state MAX_TIME_TO_WAIT_TO_SEND ;;
    if connected then
      sent <- send_to_cmd_TX_queue cmd (portMAX_DELAY - 1) ;;
      if negb (sent =? pdPASS) then
        ret CORE_TCP_CLIENT_CANT_INSERT_IN_QUEUE_ERR
      else
        ret CORE_TCP_CLIENT_OK
    else
      ret CORE_TCP_CLIENT_SEND_TIME_OUT_WARN.

(** *** The network session worker

    One iteration of the loop of [cmd_TX_func]. The socket calls are
    inputs: the descriptor returned by [socket] and the result of
    [connect]; failures are only logged, and the record reaches the
    gateway when both calls succeeded. *)
Record Sockets := mkSockets {
  socket_fd : Z;
  connect_result : Z
}.

Definition write_to_gateway (net : Sockets) (cmd : TCP_COMMAND_TYPE) : FW unit :=
  if (0 <=? socket_fd net) && (connect_result net =? 0) then
    put (fun s => with_wire (wire s ++ [cmd]) s)
  else
    ret tt.

Definition cmd_TX_func_iteration (net : Sockets) : FW unit :=
  r <- receive_from_cmd_TX_queue (portMAX_DELAY - 1) ;;
  match r with
  | (code, Some cmd) =>
      if code =? pdPASS then write_to_gateway net cmd else ret tt
  | (_, None) => ret tt
  end.

(** ** Remote_switch.c *)

Definition uint64 (v : Z) : Z := v mod 2 ^ 64.

(** Conversion to the unsigned type of the [pwm] field. *)
Definition to_pwm (v : Z) : Z := v mod 2 ^ pwm_bits.

(** [((num_of_presses%9)*10u) + MIN_DUTY_CYCLE_PERC], computed on 64 bits
    and stored into [cmd.pwm]. *)
Definition duty_cycle_of_presses (num_of_presses : Z) : Z :=
  to_pwm (uint64 (uint64 ((num_of_presses mod 9) * 10) + MIN_DUTY_CYCLE_PERC)).

(** What the task finds when the button semaphore wakes it: the value of
    the static [pressed_button], and the count that
    [get_num_of_presses(BUTTON_1, &num_of_presses)] stores (the button
    driver, Button.c, is not among the sources; its counter is an input). *)
Record Wake := mkWake {
  pressed_button : Button_ID;
  presses : Z
}.

(** The [switch] of [remote_switch_handler_func]; [cmd] is the task's
    local command, which is not initialised and lives across iterations.
    The [BUTTON_1] case falls through to [default], which only breaks. *)
Definition handler_switch (w : Wake) (cmd : TCP_COMMAND_TYPE) : TCP_COMMAND_TYPE :=
  if pressed_button w =? BUTTON_0 then
    mkCmd LED_0 TOOGLE_LED (pwm cmd)
  else if pressed_button w =? BUTTON_1 then
    let num_of_presses := uint64 (presses w) in
    let level := duty_cycle_of_presses num_of_presses in
    if level >? MAX_DUTY_CYCLE_PERC
    then mkCmd LED_0 SET_PWM (to_pwm MIN_DUTY_CYCLE_PERC)
    else mkCmd LED_0 SET_PWM level
  else
    cmd.

(** One iteration of the task loop after the semaphore was taken: returns
    the local command as the iteration leaves it and the logged result. *)
Definition remote_switch_handler_iteration (w : Wake) (cmd : TCP_COMMAND_TYPE)
  : FW (TCP_COMMAND_TYPE * TCP_client_return) :=
  let cmd1 := handler_switch w cmd in
  r <- send_message cmd1 ;;
  ret (cmd1, core_TCP_client_LOG r).

Fixpoint remote_switch_handler_func (wakes : list Wake) (cmd : TCP_COMMAND_TYPE)
  : FW TCP_COMMAND_TYPE :=
  match wakes with
  | [] => ret cmd
  | w :: rest =>
      r <- remote_switch_handler_iteration w cmd ;;
      remote_switch_handler_func rest (fst r)
  end.

(** ** The connection lifecycle as a step function *)

Inductive Lifecycle_event :=
| Module_init (sched : list (list Event))
| Address_acquired
| Link_down.

Definition lifecycle_step (e : Lifecycle_event) : FW unit :=
  match e with
  | Module_init sched => init_TCP_client sched ;;; ret tt
  | Address_acquired => IP_event_handler IP_EVENT_STA_GOT_IP
  | Link_down => WiFi_event_handler WIFI_EVENT_STA_DISCONNECTED
  end.

Fixpoint lifecycle_run (es : list Lifecycle_event) : FW unit :=
  match es with
  | [] => ret tt
  | e :: rest => lifecycle_step e ;;; lifecycle_run rest
  end.

(** The worker tasks are the only tasks the module creates. *)
Definition worker_exists (s : State) : bool :=
  match live_tasks (kernel s) with
  | [] => false
  | _ :: _ => true
  end.

(** The module keeps no lifecycle state of its own: Connected is what the
    connection state variable records. *)
Definition Connected (s : State) : bool := connection_state s.

(** The token of the connection state semaphore exists and is free. *)
Definition token_free (s : State) : Prop :=
  exists sem, connection_state_sempahore s = Some sem /\ sem_wf sem /\
              0 < uxCount sem.

(** The two shapes of a state between events when address-acquired and
    link-down events alternate and the kernel never runs out of memory. *)
Definition settled (s : State) : Prop :=
  token_free s /\
  if connection_state s
  then exists t, send_cmd_task_handler s = Some t /\ live_tasks (kernel s) = [t]
  else live_tasks (kernel s) = [] /\ free_allocs (kernel s) <> O.

Fixpoint alternates (connected : bool) (es : list Lifecycle_event) : Prop :=
  match es with
  | [] => True
  | Address_acquired :: rest => connected = false /\ alternates true rest
  | Link_down :: rest => connected = true /\ alternates false rest
  | Module_init _ :: _ => False
  end.

(** ** Calls into the module, in any order *)

Inductive Call :=
| Call_init (sched : list (list Event))
| Call_de_init
| Call_send (cmd : TCP_COMMAND_TYPE)
| Call_event (ev : Event)
| Call_worker (net : Sockets).

Definition call (c : Call) : FW unit :=
  match c with
  | Call_init sched => init_TCP_client sched ;;; ret tt
  | Call_de_init => de_init_TCP_client ;;; ret tt
  | Call_send cmd => send_message cmd ;;; ret tt
  | Call_event ev => handle_event ev
  | Call_worker net => cmd_TX_func_iteration net
  end.

Fixpoint calls (cs : list Call) : FW unit :=
  match cs with
  | [] => ret tt
  | c :: rest => call c ;;; calls rest
  end.

(** A state in which a send goes through at once: the module is
    initialised and connected, the token is free and the queue has room. *)
Definition ready (s : State) (q : Queue TCP_COMMAND_TYPE) : Prop :=
  module_was_initialized s = true /\
  connection_state s = true /\
  token_free s /\
  cmd_TX_queue s = Some q /\
  queue_full q = false.

Definition queued (s : State) : list TCP_COMMAND_TYPE :=
  match cmd_TX_queue s with
  | Some q => items q
  | None => []
  end.

(** ** Drivers for runs of the TCP client *)



(** Successive calls of [send_message], collecting the results. *)
Fixpoint send_messages (cmds : list TCP_COMMAND_TYPE) : FW (list TCP_client_return) :=
  match cmds with
  | [] => ret []
  | cmd :: rest =>
      r <- send_message cmd ;;
      rs <- send_messages rest ;;
      ret (r :: rs)
  end.

(** The module is initialised and connected and the token is free. *)
Definition online (s : State) : Prop :=
  module_was_initialized s = true /\ connection_state s = true /\ token_free s.

Definition only_WiFi_events (sched : list (list Event)) : Prop :=
  Forall (Forall (fun ev => match ev with
                            | WiFi_event _ => True
                            | IP_event _ => False
                            end)) sched.

(** ** Remote_switch.c: functions *)

Definition sys_get {A} (f : Switch.System -> A) : SW A := fun sys => Done (f sys) sys.
Definition sys_put (f : Switch.System -> Switch.System) : SW unit :=
  fun sys => Done tt (f sys).

Definition init_button (ID : Button_ID) : SW Switch.Button_return :=
  sys_get (fun sys => Switch.init_button_result (Switch.buttons sys)).
Definition BPS_button_LOG (r : Switch.Button_return) : Switch.Button_return := r.

Definition core_remote_switch_LOG (r : Switch.Remote_switch_return)
  : Switch.Remote_switch_return := r.

(** [xTaskCreate(remote_switch_handler_func, ..., &remote_switches_infos[ID].task_handler)] *)
Definition create_handler_task (ID : Button_ID) : SW BaseType_t :=
  info_at ID ;;;
  fun sys =>
    match xTaskCreate (kernel (Switch.tcp sys)) with
    | (r, Some t, k) =>
        (update_info_at ID (Switch.with_task (Some t)) ;;; ret r)
          (Switch.with_tcp (with_kernel k (Switch.tcp sys)) sys)
    | (r, None, k) => Done r (Switch.with_tcp (with_kernel k (Switch.tcp sys)) sys)
    end.

Definition init_remote_switch (ID : Button_ID) : SW Switch.Remote_switch_return :=
  r <- init_button ID ;;
  if negb (r =? Switch.BSP_BUTTON_OK) then
    ret Switch.CORE_REMOTE_SWITCH_INIT_ERR
  else
    sem <- lift_tcp (create_counting_semaphore 1 0) ;;
    update_info_at ID (Switch.with_sem sem) ;;;
    match sem with
    | None =>
        lift_tcp (vSemaphoreDelete sem) ;;;
        ret Switch.CORE_REMOTE_SWITCH_INIT_ERR
    | Some _ =>
        task_create_ret <- create_handler_task ID ;;
        if negb (task_create_ret =? pdPASS) then
          i <- info_at ID ;;
          match Switch.task_handler i with
          | Some t => lift_tcp (delete_task t)
          | None => ret tt
          end ;;;
          ret Switch.CORE_REMOTE_SWITCH_INIT_ERR
        else
          ret Switch.CORE_REMOTE_SWITCH_OK
    end.


Definition remote_switch_start_client (sched : list (list Event))
  : SW Switch.Remote_switch_return :=
  r <- lift_tcp (init_TCP_client sched) ;;
  match core_TCP_client_LOG r with
  | CORE_TCP_CLIENT_OK => ret Switch.CORE_REMOTE_SWITCH_OK
  | _ => ret Switch.CORE_REMOTE_SWITCH_START_CLIENT_ERR
  end.

Definition remote_switch_stop_client : SW Switch.Remote_switch_return :=
  r <- lift_tcp de_init_TCP_client ;;
  match core_TCP_client_LOG r with
  | CORE_TCP_CLIENT_OK => ret Switch.CORE_REMOTE_SWITCH_OK
  | _ => ret Switch.CORE_REMOTE_SWITCH_STOP_CLIENT_ERR
  end.

(** The button callback, run in interrupt context: it records the button
    and gives the semaphore of entry [BUTTON_0], whatever [ID] is. *)
Definition button_CB (ID : Button_ID) : SW unit :=
  sys_put (Switch.with_pressed_button ID) ;;;
  i <- info_at BUTTON_0 ;;
  match Switch.semaphore i with
  | None => crash
  | Some sem =>
      update_info_at BUTTON_0 (Switch.with_sem (Some (snd (xSemaphoreGive sem))))
  end.

(** One turn of the loop of [remote_switch_handler_func]: the take of the
    semaphore of entry [BUTTON_0], then the iteration. [presses] is the
    count the button driver reports for [BUTTON_1]; [cmd] is the task's
    local command. A take that does not obtain the token leaves
    everything as it was and the loop turns again. *)
Definition remote_switch_handler_turn (presses : Z) (cmd : TCP_COMMAND_TYPE)
  : SW TCP_COMMAND_TYPE :=
  i <- info_at BUTTON_0 ;;
  match Switch.semaphore i with
  | None => crash
  | Some sem =>
      update_info_at BUTTON_0
        (Switch.with_sem (Some (snd (xSemaphoreTake sem portMAX_DELAY)))) ;;;
      if fst (xSemaphoreTake sem portMAX_DELAY) =? pdTRUE then
        b <- sys_get Switch.pressed_button ;;
        r <- lift_tcp (remote_switch_handler_iteration (mkWake b presses) cmd) ;;
        ret (fst r)
      else
        ret cmd
  end.


(** What happens to the switch after start-up: a press of a button, or a
    turn of the dispatch task's loop. *)
Inductive Switch_step :=
| Press (ID : Button_ID)
| Turn (presses : Z).

(** A run of presses and turns, threading the task's local command. *)
Fixpoint switch_run (steps : list Switch_step) (cmd : TCP_COMMAND_TYPE)
  : SW TCP_COMMAND_TYPE :=
  match steps with
  | [] => ret cmd
  | Press ID :: rest => button_CB ID ;;; switch_run rest cmd
  | Turn presses :: rest =>
      cmd1 <- remote_switch_handler_turn presses cmd ;;
      switch_run rest cmd1
  end.



(** The commands a sequence of wakes makes the dispatch task build, the
    local command being threaded from one wake to the next. *)
Fixpoint commands_of (wakes : list Wake) (cmd : TCP_COMMAND_TYPE)
  : list TCP_COMMAND_TYPE :=
  match wakes with
  | [] => []
  | w :: rest => handler_switch w cmd :: commands_of rest (handler_switch w cmd)
  end.

(** Each press is followed by a turn of the task's loop before the next. *)
Definition press_then_turn (wakes : list Wake) : list Switch_step :=
  flat_map (fun w => [Press (pressed_button w); Turn (presses w)]) wakes.

(** The dispatch semaphore as [init_remote_switch] creates it, holding
    [c] tokens. *)
Definition button_semaphore (c : Z) : Semaphore := mkSemaphore 1 c None.

(** ** Properties *)

(** *** Level cycling *)

Lemma pow_pwm_bits_ge : 8 <= pwm_bits -> 256 <= 2 ^ pwm_bits.
Proof.
  intros H. change 256 with (2 ^ 8). apply Z.pow_le_mono_r; lia.
Qed.

Lemma duty_cycle_of_presses_eq (n : Z) :
  8 <= pwm_bits -> 0 <= n ->
  duty_cycle_of_presses n = (n mod 9) * 10 + 20.
Proof.
  intros Hw Hn. pose proof (pow_pwm_bits_ge Hw) as Hp.
  pose proof (Z.mod_pos_bound n 9 ltac:(lia)) as Hk.
  unfold duty_cycle_of_presses, to_pwm, uint64, MIN_DUTY_CYCLE_PERC.
  change (2 ^ 64) with 18446744073709551616.
  rewrite (Z.mod_small ((n mod 9) * 10)) by lia.
  rewrite (Z.mod_small ((n mod 9) * 10 + 20) 18446744073709551616) by lia.
  apply Z.mod_small. lia.
Qed.

Lemma handler_switch_BUTTON_1 (n : Z) (cmd : TCP_COMMAND_TYPE) :
  8 <= pwm_bits -> 0 <= n < 2 ^ 64 ->
  handler_switch (mkWake BUTTON_1 n) cmd = mkCmd LED_0 SET_PWM ((n mod 9) * 10 + 20).
Proof.
  intros Hw Hn.
  pose proof (Z.mod_pos_bound n 9 ltac:(lia)) as Hk.
  unfold handler_switch. cbn [pressed_button presses].
  change (BUTTON_1 =? BUTTON_0) with false. change (BUTTON_1 =? BUTTON_1) with true.
  cbv iota.
  assert (Hu : uint64 n = n) by (apply Z.mod_small; exact Hn).
  rewrite Hu, duty_cycle_of_presses_eq by lia.
  unfold MAX_DUTY_CYCLE_PERC.
  destruct ((n mod 9) * 10 + 20 >? 100) eqn:E; [lia | reflexivity].
Qed.

(** C1: on a wake for [BUTTON_1] with press count [n], the command built
    is a set-level command whose level is [((n mod 9) * 10) + 20], replaced
    by 20 when that exceeds 100; over any cycle of nine presses starting
    after a multiple of nine the levels are 30, 40, ..., 100, 20. *)
Theorem C1_level_cycling (n : Z) (cmd : TCP_COMMAND_TYPE) :
  8 <= pwm_bits -> 0 <= n < 2 ^ 64 ->
  MIN_DUTY_CYCLE_PERC = 20 /\ MAX_DUTY_CYCLE_PERC = 100 /\
  ID (handler_switch (mkWake BUTTON_1 n) cmd) = LED_0 /\
  action (handler_switch (mkWake BUTTON_1 n) cmd) = SET_PWM /\
  pwm (handler_switch (mkWake BUTTON_1 n) cmd) =
    (if (n mod 9) * 10 + MIN_DUTY_CYCLE_PERC >? MAX_DUTY_CYCLE_PERC
     then 20 else (n mod 9) * 10 + MIN_DUTY_CYCLE_PERC) /\
  (n mod 9 = 0 -> n + 9 < 2 ^ 64 ->
   map (fun i => pwm (handler_switch (mkWake BUTTON_1 (n + i)) cmd))
       [1; 2; 3; 4; 5; 6; 7; 8; 9]
   = [30; 40; 50; 60; 70; 80; 90; 100; 20]).
Proof.
  intros Hw Hn.
  pose proof (Z.mod_pos_bound n 9 ltac:(lia)) as Hk.
  repeat split; try reflexivity.
  - rewrite handler_switch_BUTTON_1 by assumption. reflexivity.
  - rewrite handler_switch_BUTTON_1 by assumption. reflexivity.
  - rewrite handler_switch_BUTTON_1 by assumption. cbn [pwm].
    unfold MIN_DUTY_CYCLE_PERC, MAX_DUTY_CYCLE_PERC.
    destruct ((n mod 9) * 10 + 20 >? 100) eqn:E; [lia | reflexivity].
  - intros H0 Hn9.
    assert (Hi : forall i, 0 <= i < 9 ->
                 pwm (handler_switch (mkWake BUTTON_1 (n + i)) cmd) = i * 10 + 20).
    { intros i Hi. rewrite handler_switch_BUTTON_1 by lia. cbn [pwm].
      rewrite Z.add_mod, H0 by lia. cbn [Z.add].
      rewrite Z.mod_mod by lia. rewrite (Z.mod_small i 9) by lia. reflexivity. }
    cbn [map].
    rewrite !Hi by lia.
    rewrite handler_switch_BUTTON_1 by lia. cbn [pwm].
    replace (n + 9) with (n + 1 * 9) by lia.
    rewrite Z.mod_add, H0 by lia. reflexivity.
Qed.

(** C8: for every 64-bit press count the computed level is at most 100, so
    the guard [cmd.pwm > MAX_DUTY_CYCLE_PERC] is false and the level sent
    is one of 20, 30, ..., 100. *)
Theorem C8_wrap_branch_unreachable (n : Z) (cmd : TCP_COMMAND_TYPE) :
  8 <= pwm_bits -> 0 <= n < 2 ^ 64 ->
  (n mod 9) * 10 + 20 <= 100 /\
  (duty_cycle_of_presses (uint64 n) >? MAX_DUTY_CYCLE_PERC) = false /\
  In (pwm (handler_switch (mkWake BUTTON_1 n) cmd))
     [20; 30; 40; 50; 60; 70; 80; 90; 100].
Proof.
  intros Hw Hn.
  pose proof (Z.mod_pos_bound n 9 ltac:(lia)) as Hk.
  split; [lia | split].
  - assert (Hu : uint64 n = n) by (apply Z.mod_small; exact Hn).
    rewrite Hu, duty_cycle_of_presses_eq by lia.
    unfold MAX_DUTY_CYCLE_PERC. lia.
  - rewrite handler_switch_BUTTON_1 by assumption. cbn [pwm].
    assert (Hc : n mod 9 = 0 \/ n mod 9 = 1 \/ n mod 9 = 2 \/ n mod 9 = 3 \/
                 n mod 9 = 4 \/ n mod 9 = 5 \/ n mod 9 = 6 \/ n mod 9 = 7 \/
                 n mod 9 = 8) by lia.
    cbn [In].
    repeat (destruct Hc as [Hc | Hc]; [rewrite Hc; cbn; tauto |]).
    rewrite Hc; cbn; tauto.
Qed.

(** *** The connection state accessors *)

Lemma take_then_give (sem : Semaphore) (w : TickType_t) :
  sem_wf sem -> acquired_within sem w = true ->
  fst (xSemaphoreGive (snd (xSemaphoreTake sem w))) = pdTRUE.
Proof.
  unfold sem_wf, acquired_within, xSemaphoreTake, xSemaphoreGive.
  intros [Hc Hm] Ha.
  destruct (0 <? uxCount sem) eqn:E0; cbn [fst snd uxCount uxMaxCount] in *.
  - destruct (uxCount sem - 1 <? uxMaxCount sem) eqn:E1; [reflexivity | lia].
  - destruct (holder_gives_in sem) as [d |]; [| discriminate Ha].
    destruct (d <=? w); cbn [fst snd uxCount uxMaxCount] in *; [| discriminate Ha].
    destruct (0 <? uxMaxCount sem) eqn:E1; [reflexivity | lia].
Qed.

Lemma get_connection_state_eq (w : TickType_t) (s : State) (sem : Semaphore) :
  connection_state_sempahore s = Some sem ->
  get_connection_state w s =
    if acquired_within sem w
    then Done (connection_state s)
              (with_semaphore
                 (Some (snd (xSemaphoreGive (snd (xSemaphoreTake sem w))))) s)
    else Done false (with_semaphore (Some (snd (xSemaphoreTake sem w))) s).
Proof.
  intros Hs.
  unfold get_connection_state, bind, take_connection_state_sempahore, acquired_within.
  rewrite Hs. destruct (xSemaphoreTake sem w) as [r sem1]. cbn [fst snd].
  destruct (r =? pdTRUE); [| reflexivity].
  unfold get, give_connection_state_sempahore, ret. cbn.
  destruct (xSemaphoreGive sem1); reflexivity.
Qed.

Lemma set_connection_state_eq (w : TickType_t) (b : bool) (s : State)
      (sem : Semaphore) :
  connection_state_sempahore s = Some sem ->
  set_connection_state w b s =
    if acquired_within sem w
    then Done (fst (xSemaphoreGive (snd (xSemaphoreTake sem w))) =? pdTRUE)
              (with_semaphore
                 (Some (snd (xSemaphoreGive (snd (xSemaphoreTake sem w)))))
                 (with_connection_state b s))
    else Done false (with_semaphore (Some (snd (xSemaphoreTake sem w))) s).
Proof.
  intros Hs.
  unfold set_connection_state, bind, take_connection_state_sempahore, acquired_within.
  rewrite Hs. destruct (xSemaphoreTake sem w) as [r sem1]. cbn [fst snd].
  destruct (r =? pdTRUE); [| reflexivity].
  unfold put, give_connection_state_sempahore, ret. cbn.
  destruct (xSemaphoreGive sem1) as [g sem2]. cbn [fst snd].
  destruct (g =? pdTRUE); reflexivity.
Qed.

(** C7: when the token is not obtained within the wait, the read returns
    false and the write returns false and leaves the variable as it was;
    when the token is obtained, the read returns the stored value and the
    write stores the given value and returns true. *)
Theorem C7_accessors_fail_safe (s : State) (sem : Semaphore) (w : TickType_t)
        (b : bool) :
  connection_state_sempahore s = Some sem -> sem_wf sem ->
  (acquired_within sem w = false ->
   (exists s1, get_connection_state w s = Done false s1 /\
               connection_state s1 = connection_state s) /\
   (exists s1, set_connection_state w b s = Done false s1 /\
               connection_state s1 = connection_state s)) /\
  (acquired_within sem w = true ->
   (exists s1, get_connection_state w s = Done (connection_state s) s1 /\
               connection_state s1 = connection_state s) /\
   (exists s1, set_connection_state w b s = Done true s1 /\
               connection_state s1 = b)).
Proof.
  intros Hs Hwf.
  rewrite (get_connection_state_eq w s sem Hs), (set_connection_state_eq w b s sem Hs).
  split; intros Ha; rewrite Ha.
  - split; eexists; split; reflexivity.
  - rewrite (take_then_give sem w Hwf Ha).
    split; eexists; split; reflexivity.
Qed.

(** *** Sending *)

Lemma get_connection_state_frame (w : TickType_t) (s s1 : State) (b : bool) :
  get_connection_state w s = Done b s1 ->
  s1 = with_semaphore (connection_state_sempahore s1) s.
Proof.
  destruct (connection_state_sempahore s) as [sem |] eqn:Hs.
  - rewrite (get_connection_state_eq w s sem Hs).
    destruct (acquired_within sem w); intros H; inversion H; reflexivity.
  - unfold get_connection_state, bind, take_connection_state_sempahore.
    rewrite Hs. discriminate.
Qed.

Lemma send_message_not_initialized (cmd : TCP_COMMAND_TYPE) (s : State) :
  module_was_initialized s = false ->
  send_message cmd s = Done CORE_TCP_CLIENT_MODULE_WAS_NOT_INIT_ERR s.
Proof.
  intros H. unfold send_message, bind, get. rewrite H. reflexivity.
Qed.

Lemma send_message_initialized (cmd : TCP_COMMAND_TYPE) (s : State) :
  module_was_initialized s = true ->
  send_message cmd s =
    (connected <- get_connection_state MAX_TIME_TO_WAIT_TO_SEND ;;
     if connected then
       sent <- send_to_cmd_TX_queue cmd (portMAX_DELAY - 1) ;;
       if negb (sent =? pdPASS) then
         ret CORE_TCP_CLIENT_CANT_INSERT_IN_QUEUE_ERR
       else
         ret CORE_TCP_CLIENT_OK
     else
       ret CORE_TCP_CLIENT_SEND_TIME_OUT_WARN) s.
Proof.
  intros H. unfold send_message at 1. unfold bind at 1. unfold get.
  rewrite H. reflexivity.
Qed.

(** C2: a send before the module is initialised returns
    [CORE_TCP_CLIENT_MODULE_WAS_NOT_INIT_ERR] and changes nothing; a send
    whose connection state read yields false returns
    [CORE_TCP_CLIENT_SEND_TIME_OUT_WARN] and leaves the command queue as it
    was. *)
Theorem C2_send_refused (cmd : TCP_COMMAND_TYPE) (s : State) :
  (module_was_initialized s = false ->
   send_message cmd s = Done CORE_TCP_CLIENT_MODULE_WAS_NOT_INIT_ERR s) /\
  (forall s1,
     module_was_initialized s = true ->
     get_connection_state MAX_TIME_TO_WAIT_TO_SEND s = Done false s1 ->
     send_message cmd s = Done CORE_TCP_CLIENT_SEND_TIME_OUT_WARN s1 /\
     cmd_TX_queue s1 = cmd_TX_queue s).
Proof.
  split.
  - apply send_message_not_initialized.
  - intros s1 Hi Hg. split.
    + rewrite (send_message_initialized cmd s Hi).
      unfold bind at 1. rewrite Hg. reflexivity.
    + rewrite (get_connection_state_frame _ _ _ _ Hg). reflexivity.
Qed.

Lemma send_message_connected (cmd : TCP_COMMAND_TYPE) (s s1 : State)
      (q : Queue TCP_COMMAND_TYPE) :
  module_was_initialized s = true ->
  get_connection_state MAX_TIME_TO_WAIT_TO_SEND s = Done true s1 ->
  cmd_TX_queue s = Some q ->
  send_message cmd s =
    Done (if negb (fst (xQueueSend q cmd (portMAX_DELAY - 1)) =? pdPASS)
          then CORE_TCP_CLIENT_CANT_INSERT_IN_QUEUE_ERR
          else CORE_TCP_CLIENT_OK)
         (with_queue (Some (snd (xQueueSend q cmd (portMAX_DELAY - 1)))) s1).
Proof.
  intros Hi Hg Hq.
  rewrite (send_message_initialized cmd s Hi).
  unfold bind at 1. rewrite Hg.
  unfold bind, send_to_cmd_TX_queue.
  rewrite (get_connection_state_frame _ _ _ _ Hg). cbn [cmd_TX_queue with_semaphore].
  rewrite Hq.
  destruct (xQueueSend q cmd (portMAX_DELAY - 1)) as [r q1]. cbn [fst snd].
  destruct (r =? pdPASS); reflexivity.
Qed.

(** C5: with the module initialised and the connection state read as true,
    the insertion into the queue of capacity 10 succeeds at once when a
    slot is free, succeeds after blocking when the reader frees a slot
    within the bounded wait [portMAX_DELAY - 1], and otherwise fails with
    [CORE_TCP_CLIENT_CANT_INSERT_IN_QUEUE_ERR] leaving the queue as it was;
    a successful insertion puts the command at the back. *)
Theorem C5_queue_insertion (cmd : TCP_COMMAND_TYPE) (s s1 : State)
        (q : Queue TCP_COMMAND_TYPE) :
  module_was_initialized s = true ->
  get_connection_state MAX_TIME_TO_WAIT_TO_SEND s = Done true s1 ->
  cmd_TX_queue s = Some q ->
  uxLength q = RX_QUEUE_LEN ->
  RX_QUEUE_LEN = 10 /\
  ((length (items q) < 10)%nat ->
   exists s2, send_message cmd s = Done CORE_TCP_CLIENT_OK s2 /\
              queued s2 = items q ++ [cmd]) /\
  ((10 <= length (items q))%nat ->
   forall d, reader_takes_in q = Some d -> d <= portMAX_DELAY - 1 ->
   exists s2, send_message cmd s = Done CORE_TCP_CLIENT_OK s2 /\
              queued s2 = tl (items q) ++ [cmd]) /\
  ((10 <= length (items q))%nat ->
   (forall d, reader_takes_in q = Some d -> portMAX_DELAY - 1 < d) ->
   exists s2, send_message cmd s = Done CORE_TCP_CLIENT_CANT_INSERT_IN_QUEUE_ERR s2 /\
              queued s2 = items q).
Proof.
  intros Hi Hg Hq Hlen.
  rewrite (send_message_connected cmd s s1 q Hi Hg Hq).
  unfold xQueueSend, queue_full, queued. rewrite Hlen. unfold RX_QUEUE_LEN.
  split; [reflexivity |].
  split; [| split].
  - intros Hroom.
    destruct (10 <=? Z.of_nat (length (items q))) eqn:E; [lia |].
    eexists; split; reflexivity.
  - intros Hfull d Hd Hle.
    destruct (10 <=? Z.of_nat (length (items q))) eqn:E; [| lia].
    rewrite Hd. destruct (d <=? portMAX_DELAY - 1) eqn:E1; [| lia].
    eexists; split; reflexivity.
  - intros Hfull Hlate.
    destruct (10 <=? Z.of_nat (length (items q))) eqn:E; [| lia].
    destruct (reader_takes_in q) as [d |] eqn:Hd.
    + specialize (Hlate d eq_refl).
      destruct (d <=? portMAX_DELAY - 1) eqn:E1; [lia |].
      eexists; split; reflexivity.
    + eexists; split; reflexivity.
Qed.

Lemma send_message_ready (cmd : TCP_COMMAND_TYPE) (s : State)
      (q : Queue TCP_COMMAND_TYPE) :
  ready s q ->
  exists s1,
    send_message cmd s = Done CORE_TCP_CLIENT_OK s1 /\
    cmd_TX_queue s1 = Some (mkQueue (uxLength q) (items q ++ [cmd]) (reader_takes_in q)) /\
    module_was_initialized s1 = true /\
    connection_state s1 = true /\
    token_free s1 /\
    wire s1 = wire s.
Proof.
  intros (Hi & Hc & (sem & Hs & Hwf & Hpos) & Hq & Hfull).
  assert (Ha : acquired_within sem MAX_TIME_TO_WAIT_TO_SEND = true).
  { unfold acquired_within, xSemaphoreTake.
    destruct (0 <? uxCount sem) eqn:E; [reflexivity | lia]. }
  pose proof (get_connection_state_eq MAX_TIME_TO_WAIT_TO_SEND s sem Hs) as Hg.
  rewrite Ha, Hc in Hg.
  rewrite (send_message_connected cmd s _ q Hi Hg Hq).
  unfold xQueueSend. rewrite Hfull. cbn [fst snd].
  eexists; split; [reflexivity |].
  cbn. repeat split; try assumption.
  destruct Hwf as [Hcnt Hmax].
  unfold xSemaphoreTake, xSemaphoreGive.
  destruct (0 <? uxCount sem) eqn:E; [| lia]. cbn [snd uxCount uxMaxCount].
  destruct (uxCount sem - 1 <? uxMaxCount sem) eqn:E1; [| lia].
  eexists; split; [reflexivity |]. unfold sem_wf; cbn. lia.
Qed.

(** *** Access to the connection state outside the accessors *)

Lemma de_init_TCP_client_eq (s : State) :
  de_init_TCP_client s =
    Done (if negb (de_init_WiFi_result (wifi s) =? CORE_WIFI_OK)
          then CORE_TCP_CLIENT_DE_INIT_ERR else CORE_TCP_CLIENT_OK)
         (with_connection_state false s).
Proof.
  unfold de_init_TCP_client, bind, put, de_init_WiFi, get, core_WiFi_LOG.
  cbn. destruct (de_init_WiFi_result (wifi s) =? CORE_WIFI_OK); reflexivity.
Qed.

(** C3: while another task holds the token for longer than the wait, the
    guarded write through [set_connection_state] is refused and leaves the
    variable true, but [de_init_TCP_client] writes false into it without
    taking the semaphore, which it leaves untouched. *)
Theorem C3_de_init_writes_without_token (s : State) (sem : Semaphore)
        (w : TickType_t) :
  connection_state_sempahore s = Some sem ->
  acquired_within sem w = false ->
  connection_state s = true ->
  (exists s1, set_connection_state w false s = Done false s1 /\
              connection_state s1 = true) /\
  (exists r s1, de_init_TCP_client s = Done r s1 /\
                connection_state s1 = false /\
                connection_state_sempahore s1 = Some sem).
Proof.
  intros Hs Ha Hc. split.
  - rewrite (set_connection_state_eq w false s sem Hs), Ha.
    eexists; split; [reflexivity | exact Hc].
  - rewrite de_init_TCP_client_eq.
    eexists; eexists; split; [reflexivity | split; [reflexivity | exact Hs]].
Qed.

(** *** The dispatch task *)

Lemma handler_switch_unrecognized (w : Wake) (cmd : TCP_COMMAND_TYPE) :
  pressed_button w <> BUTTON_0 -> pressed_button w <> BUTTON_1 ->
  handler_switch w cmd = cmd.
Proof.
  intros H0 H1. unfold handler_switch.
  destruct (pressed_button w =? BUTTON_0) eqn:E0; [lia |].
  destruct (pressed_button w =? BUTTON_1) eqn:E1; [lia | reflexivity].
Qed.

Lemma handler_iteration_ready (w : Wake) (cmd : TCP_COMMAND_TYPE) (s : State)
      (q : Queue TCP_COMMAND_TYPE) :
  ready s q ->
  exists s1,
    remote_switch_handler_iteration w cmd s =
      Done (handler_switch w cmd, CORE_TCP_CLIENT_OK) s1 /\
    cmd_TX_queue s1 =
      Some (mkQueue (uxLength q) (items q ++ [handler_switch w cmd])
                    (reader_takes_in q)) /\
    module_was_initialized s1 = true /\
    connection_state s1 = true /\
    token_free s1 /\
    wire s1 = wire s.
Proof.
  intros Hr.
  destruct (send_message_ready (handler_switch w cmd) s q Hr) as (s1 & Hsend & Hrest).
  exists s1. split; [| exact Hrest].
  unfold remote_switch_handler_iteration, bind. rewrite Hsend. reflexivity.
Qed.

(** C4: on a wake whose recorded button is neither [BUTTON_0] nor
    [BUTTON_1] the switch leaves the local command as the previous
    iteration left it, and the task still calls [send_message] with it:
    in a ready state that command is appended to the queue. *)
Theorem C4_unrecognized_button_is_forwarded (w : Wake) (cmd : TCP_COMMAND_TYPE)
        (s : State) (q : Queue TCP_COMMAND_TYPE) :
  pressed_button w <> BUTTON_0 -> pressed_button w <> BUTTON_1 ->
  ready s q ->
  exists s1,
    remote_switch_handler_iteration w cmd s = Done (cmd, CORE_TCP_CLIENT_OK) s1 /\
    queued s1 = items q ++ [cmd].
Proof.
  intros H0 H1 Hr.
  destruct (handler_iteration_ready w cmd s q Hr) as (s1 & Hit & Hq & _).
  rewrite (handler_switch_unrecognized w cmd H0 H1) in Hit, Hq.
  exists s1. split; [exact Hit |].
  unfold queued. rewrite Hq. reflexivity.
Qed.

(** C10: the toggle branch assigns only [ID] and [action]; the level of
    the command it builds is the level of the task's local command, which
    is whatever it held at task start on the first press and whatever the
    previous iteration left afterwards. The record is enqueued with that
    level and the worker writes it to the gateway unchanged. *)
Theorem C10_toggle_level_unset (cmd0 : TCP_COMMAND_TYPE) (n : Z) (net : Sockets)
        (s : State) (q : Queue TCP_COMMAND_TYPE) :
  ready s q -> items q = [] -> 2 <= uxLength q ->
  0 <= socket_fd net -> connect_result net = 0 ->
  handler_switch (mkWake BUTTON_0 n) cmd0 = mkCmd LED_0 TOOGLE_LED (pwm cmd0) /\
  (exists s1 s2,
     remote_switch_handler_iteration (mkWake BUTTON_0 n) cmd0 s =
       Done (mkCmd LED_0 TOOGLE_LED (pwm cmd0), CORE_TCP_CLIENT_OK) s1 /\
     queued s1 = [mkCmd LED_0 TOOGLE_LED (pwm cmd0)] /\
     cmd_TX_func_iteration net s1 = Done tt s2 /\
     wire s2 = wire s ++ [mkCmd LED_0 TOOGLE_LED (pwm cmd0)]) /\
  (forall w, exists s2,
     remote_switch_handler_func [w; mkWake BUTTON_0 n] cmd0 s =
       Done (mkCmd LED_0 TOOGLE_LED (pwm (handler_switch w cmd0))) s2 /\
     queued s2 = [handler_switch w cmd0;
                  mkCmd LED_0 TOOGLE_LED (pwm (handler_switch w cmd0))]).
Proof.
  intros Hr Hempty Hcap Hfd Hconn.
  assert (Htoggle : forall c, handler_switch (mkWake BUTTON_0 n) c
                              = mkCmd LED_0 TOOGLE_LED (pwm c)) by reflexivity.
  split; [apply Htoggle | split].
  - destruct (handler_iteration_ready (mkWake BUTTON_0 n) cmd0 s q Hr)
      as (s1 & Hit & Hq & _ & _ & _ & Hw).
    rewrite Htoggle, Hempty in *. cbn [app] in Hq.
    exists s1. eexists. split; [exact Hit |].
    split; [unfold queued; rewrite Hq; reflexivity |].
    unfold cmd_TX_func_iteration, bind, receive_from_cmd_TX_queue.
    rewrite Hq. cbn.
    unfold write_to_gateway.
    destruct (0 <=? socket_fd net) eqn:E; [| lia].
    rewrite Hconn. cbn. unfold put.
    split; [reflexivity |]. cbn. rewrite Hw. reflexivity.
  - intros w.
    destruct (handler_iteration_ready w cmd0 s q Hr)
      as (s1 & Hit & Hq & Hi & Hc & Hsem & _).
    rewrite Hempty in Hq. cbn [app] in Hq.
    assert (Hr1 : ready s1 (mkQueue (uxLength q) [handler_switch w cmd0]
                                    (reader_takes_in q))).
    { unfold ready. repeat split; try assumption.
      unfold queue_full. cbn. lia. }
    destruct (handler_iteration_ready (mkWake BUTTON_0 n) (handler_switch w cmd0)
                                      s1 _ Hr1) as (s2 & Hit2 & Hq2 & _).
    rewrite Htoggle in Hit2, Hq2.
    exists s2. split.
    + cbn [remote_switch_handler_func]. unfold bind at 1. rewrite Hit.
      cbn [fst]. unfold bind at 1. rewrite Hit2. reflexivity.
    + unfold queued. rewrite Hq2. reflexivity.
Qed.

(** *** The module-initialised flag *)

Lemma preserves_ret {A} (I : State -> Prop) (a : A) : preserves I (ret a).
Proof.
  intros s b s1 HI H. inversion H; subst. exact HI.
Qed.

Lemma preserves_get {A} (I : State -> Prop) (f : State -> A) : preserves I (get f).
Proof.
  intros s b s1 HI H. inversion H; subst. exact HI.
Qed.

Lemma preserves_put (I : State -> Prop) (f : State -> State) :
  (forall s, I s -> I (f s)) -> preserves I (put f).
Proof.
  intros Hf s b s1 HI H. inversion H; subst. apply Hf, HI.
Qed.

Lemma preserves_bind {A B} (I : State -> Prop) (m : FW A) (k : A -> FW B) :
  preserves I m -> (forall a, preserves I (k a)) -> preserves I (bind m k).
Proof.
  intros Hm Hk s b s2 HI H. unfold bind in H.
  destruct (m s) as [a s1 | |] eqn:E; try discriminate.
  exact (Hk a s1 b s2 (Hm s a s1 HI E) H).
Qed.

Ltac kernel_call_keeps_flag :=
  let H := fresh "H" in
  intros ? ? ? ? H;
  repeat match type of H with
         | context [match ?x with _ => _ end] => destruct x eqn:?
         end;
  try discriminate H; inversion H; subst; assumption.

Lemma take_keeps_flag (w : TickType_t) :
  preserves initialized (take_connection_state_sempahore w).
Proof. unfold take_connection_state_sempahore. kernel_call_keeps_flag. Qed.

Lemma give_keeps_flag : preserves initialized give_connection_state_sempahore.
Proof. unfold give_connection_state_sempahore. kernel_call_keeps_flag. Qed.

Lemma create_queue_keeps_flag (n : Z) : preserves initialized (create_queue n).
Proof. unfold create_queue. kernel_call_keeps_flag. Qed.

Lemma create_semaphore_keeps_flag (m i : Z) :
  preserves initialized (create_counting_semaphore m i).
Proof. unfold create_counting_semaphore. kernel_call_keeps_flag. Qed.

Lemma vSemaphoreDelete_keeps_flag (h : SemaphoreHandle_t) :
  preserves initialized (vSemaphoreDelete h).
Proof. unfold vSemaphoreDelete. kernel_call_keeps_flag. Qed.

Lemma queue_send_keeps_flag (cmd : TCP_COMMAND_TYPE) (w : TickType_t) :
  preserves initialized (send_to_cmd_TX_queue cmd w).
Proof. unfold send_to_cmd_TX_queue. kernel_call_keeps_flag. Qed.

Lemma queue_receive_keeps_flag (w : TickType_t) :
  preserves initialized (receive_from_cmd_TX_queue w).
Proof. unfold receive_from_cmd_TX_queue. kernel_call_keeps_flag. Qed.

Lemma create_task_keeps_flag : preserves initialized create_send_cmd_task.
Proof. unfold create_send_cmd_task. kernel_call_keeps_flag. Qed.

Lemma delete_task_keeps_flag (t : nat) : preserves initialized (delete_task t).
Proof. unfold delete_task. kernel_call_keeps_flag. Qed.

Lemma esp_wifi_connect_keeps_flag : preserves initialized esp_wifi_connect.
Proof. apply preserves_put. intros s H. exact H. Qed.

Create HintDb flag discriminated.
#[local] Hint Resolve preserves_ret preserves_get take_keeps_flag give_keeps_flag
  create_queue_keeps_flag create_semaphore_keeps_flag vSemaphoreDelete_keeps_flag
  queue_send_keeps_flag queue_receive_keeps_flag create_task_keeps_flag
  delete_task_keeps_flag esp_wifi_connect_keeps_flag : flag.

Ltac keeps_flag :=
  repeat first
    [ solve [auto with flag]
    | apply preserves_put; intros ? ?; assumption
    | apply preserves_bind; [| intros ?]
    | match goal with
      | |- preserves _ (if ?b then _ else _) => destruct b
      | |- preserves _ (match ?x with _ => _ end) => destruct x
      end ].

Lemma get_connection_state_keeps_flag (w : TickType_t) :
  preserves initialized (get_connection_state w).
Proof. unfold get_connection_state. keeps_flag. Qed.

Lemma set_connection_state_keeps_flag (w : TickType_t) (b : bool) :
  preserves initialized (set_connection_state w b).
Proof. unfold set_connection_state. keeps_flag. Qed.

#[local] Hint Resolve get_connection_state_keeps_flag
  set_connection_state_keeps_flag : flag.

Lemma handle_event_keeps_flag (ev : Event) : preserves initialized (handle_event ev).
Proof.
  destruct ev as [id | id]; destruct id; cbn; keeps_flag.
Qed.

Lemma handle_events_keeps_flag (evs : list Event) :
  preserves initialized (handle_events evs).
Proof.
  induction evs as [| ev rest IH]; cbn.
  - apply preserves_ret.
  - apply preserves_bind; [apply handle_event_keeps_flag | intros _; exact IH].
Qed.

Lemma wait_for_connection_keeps_flag (sched : list (list Event)) :
  preserves initialized (wait_for_connection sched).
Proof.
  induction sched as [| evs rest IH]; intros s a s2 HI H; cbn in H;
    destruct (get_connection_state MAX_TIME_TO_WAIT_TO_SEND s) as [b s1 | |] eqn:Eg;
    try discriminate;
    pose proof (get_connection_state_keeps_flag _ _ _ _ HI Eg) as HI1;
    destruct b; try discriminate.
  - inversion H; subst. exact HI1.
  - inversion H; subst. exact HI1.
  - destruct (handle_events evs s1) as [u s1' | |] eqn:Eh; try discriminate.
    exact (IH _ _ _ (handle_events_keeps_flag _ _ _ _ HI1 Eh) H).
Qed.

#[local] Hint Resolve handle_event_keeps_flag wait_for_connection_keeps_flag : flag.

Lemma init_TCP_client_keeps_flag (sched : list (list Event)) :
  preserves initialized (init_TCP_client sched).
Proof.
  unfold init_TCP_client, WiFi_init. keeps_flag.
  apply preserves_put. intros; reflexivity.
Qed.

Lemma de_init_TCP_client_keeps_flag : preserves initialized de_init_TCP_client.
Proof. unfold de_init_TCP_client, de_init_WiFi. keeps_flag. Qed.

Lemma send_message_keeps_flag (cmd : TCP_COMMAND_TYPE) :
  preserves initialized (send_message cmd).
Proof. unfold send_message. keeps_flag. Qed.

Lemma cmd_TX_func_iteration_keeps_flag (net : Sockets) :
  preserves initialized (cmd_TX_func_iteration net).
Proof. unfold cmd_TX_func_iteration, write_to_gateway. keeps_flag. Qed.

Lemma call_keeps_flag (c : Call) : preserves initialized (call c).
Proof.
  destruct c; cbn [call].
  - apply preserves_bind; [apply init_TCP_client_keeps_flag | intros; apply preserves_ret].
  - apply preserves_bind; [apply de_init_TCP_client_keeps_flag | intros; apply preserves_ret].
  - apply preserves_bind; [apply send_message_keeps_flag | intros; apply preserves_ret].
  - apply handle_event_keeps_flag.
  - apply cmd_TX_func_iteration_keeps_flag.
Qed.

Lemma calls_keep_flag (cs : list Call) : preserves initialized (calls cs).
Proof.
  induction cs as [| c rest IH]; cbn.
  - apply preserves_ret.
  - apply preserves_bind; [apply call_keeps_flag | intros _; exact IH].
Qed.

Lemma init_TCP_client_OK_sets_flag (sched : list (list Event)) (s s1 : State) :
  init_TCP_client sched s = Done CORE_TCP_CLIENT_OK s1 -> initialized s1.
Proof.
  unfold init_TCP_client, bind, put, create_queue, create_counting_semaphore,
    vSemaphoreDelete, WiFi_init, get, ret, core_WiFi_LOG.
  intros H.
  repeat match type of H with
         | context [match ?x with _ => _ end] => destruct x eqn:?
         end;
  try discriminate H; inversion H; subst; reflexivity.
Qed.

Lemma send_message_initialized_result (cmd : TCP_COMMAND_TYPE) (s s1 : State)
      (r : TCP_client_return) :
  initialized s -> send_message cmd s = Done r s1 ->
  r <> CORE_TCP_CLIENT_MODULE_WAS_NOT_INIT_ERR.
Proof.
  intros Hi H. rewrite (send_message_initialized cmd s Hi) in H.
  unfold bind, send_to_cmd_TX_queue, ret in H.
  repeat match type of H with
         | context [match ?x with _ => _ end] => destruct x eqn:?
         end;
  try discriminate H; inversion H; subst; discriminate.
Qed.

(** C9: once [init_TCP_client] has returned [CORE_TCP_CLIENT_OK] the
    module-initialised flag is true and stays true through any later calls
    into the module, de-initialisation included; no later [send_message]
    returns [CORE_TCP_CLIENT_MODULE_WAS_NOT_INIT_ERR]. *)
Theorem C9_initialized_flag_is_sticky (sched : list (list Event))
        (s0 s1 : State) (cs : list Call) (s2 : State) :
  init_TCP_client sched s0 = Done CORE_TCP_CLIENT_OK s1 ->
  calls cs s1 = Done tt s2 ->
  module_was_initialized s1 = true /\
  module_was_initialized s2 = true /\
  (forall r s3, de_init_TCP_client s2 = Done r s3 ->
                module_was_initialized s3 = true) /\
  (forall cmd r s3, send_message cmd s2 = Done r s3 ->
                    r <> CORE_TCP_CLIENT_MODULE_WAS_NOT_INIT_ERR).
Proof.
  intros Hinit Hcalls.
  pose proof (init_TCP_client_OK_sets_flag sched s0 s1 Hinit) as H1.
  pose proof (calls_keep_flag cs s1 tt s2 H1 Hcalls) as H2.
  repeat split; try assumption.
  - intros r s3 Hd. exact (de_init_TCP_client_keeps_flag s2 r s3 H2 Hd).
  - intros cmd r s3 Hs. exact (send_message_initialized_result cmd s2 s3 r H2 Hs).
Qed.

(** *** The connection lifecycle *)

Lemma acquired_when_free (sem : Semaphore) (w : TickType_t) :
  0 < uxCount sem -> acquired_within sem w = true.
Proof.
  intros H. unfold acquired_within, xSemaphoreTake.
  destruct (0 <? uxCount sem) eqn:E; [reflexivity | lia].
Qed.

Lemma token_stays_free (sem : Semaphore) (w : TickType_t) :
  sem_wf sem -> 0 < uxCount sem ->
  sem_wf (snd (xSemaphoreGive (snd (xSemaphoreTake sem w)))) /\
  0 < uxCount (snd (xSemaphoreGive (snd (xSemaphoreTake sem w)))).
Proof.
  intros [Hc Hm] Hpos. unfold xSemaphoreTake, xSemaphoreGive, sem_wf.
  destruct (0 <? uxCount sem) eqn:E; [| lia]. cbn [snd uxCount uxMaxCount].
  destruct (uxCount sem - 1 <? uxMaxCount sem) eqn:E1; [| lia].
  cbn. lia.
Qed.

(** With the token free and memory left, the address-acquired handler
    records the connection and starts a worker, whose handle it stores. *)
Lemma address_acquired_effect (s : State) :
  token_free s -> free_allocs (kernel s) <> O ->
  exists s1,
    IP_event_handler IP_EVENT_STA_GOT_IP s = Done tt s1 /\
    connection_state s1 = true /\
    send_cmd_task_handler s1 = Some (next_task (kernel s)) /\
    live_tasks (kernel s1) = next_task (kernel s) :: live_tasks (kernel s) /\
    token_free s1.
Proof.
  intros (sem & Hs & Hwf & Hpos) Hmem.
  cbn [IP_event_handler]. unfold bind at 1.
  rewrite (set_connection_state_eq (portMAX_DELAY - 1) true s sem Hs).
  rewrite (acquired_when_free sem _ Hpos).
  unfold bind, create_send_cmd_task, xTaskCreate, kernel_alloc. cbn.
  destruct (free_allocs (kernel s)) as [| n]; [congruence |].
  eexists; split; [reflexivity |]. cbn. repeat split.
  eexists; split; [reflexivity |].
  apply token_stays_free; assumption.
Qed.

(** With the token free and the stored handle naming a live worker, the
    link-down handler clears the connection state, deletes that worker and
    requests a new connection; the stored handle is left as it was. *)
Lemma link_down_effect (s : State) (t : nat) :
  token_free s ->
  send_cmd_task_handler s = Some t -> task_alive (kernel s) t = true ->
  exists s1,
    WiFi_event_handler WIFI_EVENT_STA_DISCONNECTED s = Done tt s1 /\
    connection_state s1 = false /\
    live_tasks (kernel s1) =
      filter (fun u => negb (Nat.eqb t u)) (live_tasks (kernel s)) /\
    free_allocs (kernel s1) <> O /\
    connect_requests (wifi s1) = S (connect_requests (wifi s)) /\
    send_cmd_task_handler s1 = Some t /\
    token_free s1.
Proof.
  intros (sem & Hs & Hwf & Hpos) Hh Halive.
  cbn [WiFi_event_handler]. unfold bind at 1.
  rewrite (set_connection_state_eq (portMAX_DELAY - 1) false s sem Hs).
  rewrite (acquired_when_free sem _ Hpos).
  unfold bind, get, delete_task, vTaskDelete, esp_wifi_connect, put. cbn.
  rewrite Hh. cbn. rewrite Halive.
  eexists; split; [reflexivity |]. cbn. repeat split; try assumption.
  - discriminate.
  - eexists; split; [reflexivity |].
    apply token_stays_free; assumption.
Qed.

(** When address-acquired and link-down events alternate from a settled
    state, every event is handled, the state stays settled, and a worker
    exists exactly when the connection state is true. *)
Lemma alternating_lifecycle (es : list Lifecycle_event) (s : State) :
  settled s -> alternates (connection_state s) es ->
  exists s1,
    lifecycle_run es s = Done tt s1 /\ settled s1 /\
    worker_exists s1 = Connected s1.
Proof.
  revert s. induction es as [| e rest IH]; intros s Hset Halt.
  - exists s. split; [reflexivity | split; [exact Hset |]].
    destruct Hset as [_ Hshape]. unfold worker_exists, Connected.
    destruct (connection_state s).
    + destruct Hshape as (t & _ & Hl). rewrite Hl. reflexivity.
    + destruct Hshape as [Hl _]. rewrite Hl. reflexivity.
  - destruct Hset as [Htok Hshape].
    destruct e as [sched | |]; cbn [alternates] in Halt; [contradiction | |];
      destruct Halt as [Hc Halt]; rewrite Hc in Hshape.
    + destruct Hshape as [Hl Hmem].
      destruct (address_acquired_effect s Htok Hmem)
        as (s1 & Hrun & Hc1 & Hh1 & Hl1 & Htok1).
      destruct (IH s1) as (s2 & Hrest & Hset2 & Hiff).
      * split; [exact Htok1 |]. rewrite Hc1.
        exists (next_task (kernel s)). rewrite Hl1, Hl. split; [exact Hh1 | reflexivity].
      * rewrite Hc1. exact Halt.
      * exists s2. split; [| split; assumption].
        cbn [lifecycle_run lifecycle_step]. unfold bind at 1. rewrite Hrun. exact Hrest.
    + destruct Hshape as (t & Hh & Hl).
      assert (Halive : task_alive (kernel s) t = true).
      { unfold task_alive. rewrite Hl. cbn. rewrite Nat.eqb_refl. reflexivity. }
      destruct (link_down_effect s t Htok Hh Halive)
        as (s1 & Hrun & Hc1 & Hl1 & Hmem1 & _ & _ & Htok1).
      rewrite Hl in Hl1. cbn in Hl1. rewrite Nat.eqb_refl in Hl1. cbn in Hl1.
      destruct (IH s1) as (s2 & Hrest & Hset2 & Hiff).
      * split; [exact Htok1 |]. rewrite Hc1. split; assumption.
      * rewrite Hc1. exact Halt.
      * exists s2. split; [| split; assumption].
        cbn [lifecycle_run lifecycle_step]. unfold bind at 1. rewrite Hrun. exact Hrest.
Qed.

(** C6: two runs of the lifecycle from power-on. In the first the address
    is acquired twice before the link goes down: the second worker's
    handle overwrites the first, the link-down handler deletes only the
    second, and a worker is left running although the connection state is
    false. In the second the kernel has no memory left for the worker
    task: the connection state is true and no worker exists. *)
Theorem C6_worker_not_tied_to_Connected :
  (exists s,
     lifecycle_run [Module_init [[IP_event IP_EVENT_STA_GOT_IP]];
                    Address_acquired; Link_down]
                   (power_on (mkKernel [] 0 8) (mkWiFi CORE_WIFI_OK CORE_WIFI_OK 0))
       = Done tt s /\
     Connected s = false /\ worker_exists s = true) /\
  (exists s,
     lifecycle_run [Module_init [[IP_event IP_EVENT_STA_GOT_IP]]]
                   (power_on (mkKernel [] 0 2) (mkWiFi CORE_WIFI_OK CORE_WIFI_OK 0))
       = Done tt s /\
     Connected s = true /\ worker_exists s = false).
Proof.
  split; eexists; (split; [vm_compute; reflexivity | split; reflexivity]).
Qed.

(** A second link-down without an address in between passes the stale
    handle of the deleted worker to the kernel again. *)
Lemma link_down_twice_deletes_stale_handle :
  lifecycle_run [Module_init [[IP_event IP_EVENT_STA_GOT_IP]]; Link_down; Link_down]
                (power_on (mkKernel [] 0 8) (mkWiFi CORE_WIFI_OK CORE_WIFI_OK 0))
  = Abort.
Proof. vm_compute. reflexivity. Qed.

(** ** Further properties of TCP_client.c *)

(** *** What the handlers and accessors leave alone *)

Lemma handler_frame_refl (s : State) : handler_frame s s.
Proof. unfold handler_frame. auto. Qed.

Lemma handler_frame_trans (s s1 s2 : State) :
  handler_frame s s1 -> handler_frame s1 s2 -> handler_frame s s2.
Proof.
  unfold handler_frame. intros (Hq & Hi & Hw & Hs) (Hq1 & Hi1 & Hw1 & Hs1).
  repeat split; try congruence. auto.
Qed.

Lemma frames_ret {A} (a : A) : frames handler_frame (ret a).
Proof. intros s b s1 H. inversion H; subst. apply handler_frame_refl. Qed.

Lemma frames_bind {A B} (m : FW A) (k : A -> FW B) :
  frames handler_frame m -> (forall a, frames handler_frame (k a)) ->
  frames handler_frame (bind m k).
Proof.
  intros Hm Hk s b s2 H. unfold bind in H.
  destruct (m s) as [a s1 | |] eqn:E; try discriminate.
  exact (handler_frame_trans _ _ _ (Hm s a s1 E) (Hk a s1 b s2 H)).
Qed.

Ltac kernel_call_frames :=
  let H := fresh "H" in
  intros ? ? ? H;
  repeat match type of H with
         | context [match ?x with _ => _ end] => destruct x eqn:?
         end;
  try discriminate H; inversion H; subst;
  unfold handler_frame; cbn; repeat split; first [congruence | auto].

Lemma take_frames (w : TickType_t) :
  frames handler_frame (take_connection_state_sempahore w).
Proof. unfold take_connection_state_sempahore. kernel_call_frames. Qed.

Lemma give_frames : frames handler_frame give_connection_state_sempahore.
Proof. unfold give_connection_state_sempahore. kernel_call_frames. Qed.

Lemma create_task_frames : frames handler_frame create_send_cmd_task.
Proof. unfold create_send_cmd_task. kernel_call_frames. Qed.

Lemma delete_task_frames (t : nat) : frames handler_frame (delete_task t).
Proof. unfold delete_task. kernel_call_frames. Qed.

Lemma esp_wifi_connect_frames : frames handler_frame esp_wifi_connect.
Proof. unfold esp_wifi_connect, put. kernel_call_frames. Qed.

Lemma put_connection_state_frames (b : bool) :
  frames handler_frame (put (with_connection_state b)).
Proof. unfold put. kernel_call_frames. Qed.

Lemma get_frames {A} (f : State -> A) : frames handler_frame (get f).
Proof. unfold get. kernel_call_frames. Qed.

Create HintDb frame discriminated.
#[local] Hint Resolve frames_ret take_frames give_frames create_task_frames
  delete_task_frames esp_wifi_connect_frames put_connection_state_frames
  get_frames : frame.

Ltac handler_frames :=
  repeat first
    [ solve [auto with frame]
    | apply frames_bind; [| intros ?]
    | match goal with
      | |- frames _ (if ?b then _ else _) => destruct b
      | |- frames _ (match ?x with _ => _ end) => destruct x
      end ].

Lemma get_connection_state_frames (w : TickType_t) :
  frames handler_frame (get_connection_state w).
Proof. unfold get_connection_state. handler_frames. Qed.

Lemma set_connection_state_frames (w : TickType_t) (b : bool) :
  frames handler_frame (set_connection_state w b).
Proof. unfold set_connection_state. handler_frames. Qed.

#[local] Hint Resolve get_connection_state_frames set_connection_state_frames : frame.

Lemma handle_event_frames (ev : Event) : frames handler_frame (handle_event ev).
Proof. destruct ev as [id | id]; destruct id; cbn; handler_frames. Qed.

Lemma handle_events_frames (evs : list Event) :
  frames handler_frame (handle_events evs).
Proof.
  induction evs as [| ev rest IH]; cbn.
  - apply frames_ret.
  - apply frames_bind; [apply handle_event_frames | intros _; exact IH].
Qed.

Lemma get_connection_state_true (w : TickType_t) (s s1 : State) :
  get_connection_state w s = Done true s1 -> connection_state s1 = true.
Proof.
  destruct (connection_state_sempahore s) as [sem |] eqn:Hs.
  - rewrite (get_connection_state_eq w s sem Hs).
    destruct (acquired_within sem w); intros H; inversion H; subst; cbn; congruence.
  - unfold get_connection_state, bind, take_connection_state_sempahore.
    rewrite Hs. discriminate.
Qed.

Lemma wait_for_connection_post (sched : list (list Event)) (s s1 : State) (u : unit) :
  wait_for_connection sched s = Done u s1 ->
  connection_state s1 = true /\ handler_frame s s1.
Proof.
  revert s. induction sched as [| evs rest IH]; intros s H; cbn in H;
    destruct (get_connection_state MAX_TIME_TO_WAIT_TO_SEND s) as [b s0 | |] eqn:Eg;
    try discriminate;
    pose proof (get_connection_state_frames _ _ _ _ Eg) as Hf0;
    destruct b; try discriminate.
  - inversion H; subst. split; [exact (get_connection_state_true _ _ _ Eg) | exact Hf0].
  - inversion H; subst. split; [exact (get_connection_state_true _ _ _ Eg) | exact Hf0].
  - destruct (handle_events evs s0) as [v s2 | |] eqn:Eh; try discriminate.
    destruct (IH s2 H) as [Hc Hf2]. split; [exact Hc |].
    exact (handler_frame_trans _ _ _ Hf0
             (handler_frame_trans _ _ _ (handle_events_frames _ _ _ _ Eh) Hf2)).
Qed.

(** *** Initialisation *)

Lemma init_TCP_client_OK_post (sched : list (list Event)) (s s1 : State) :
  init_TCP_client sched s = Done CORE_TCP_CLIENT_OK s1 ->
  module_was_initialized s1 = true /\
  connection_state s1 = true /\
  cmd_TX_queue s1 = Some (xQueueCreate RX_QUEUE_LEN) /\
  queued s1 = [] /\
  connection_state_sempahore s1 <> None /\
  wire s1 = wire s.
Proof.
  unfold init_TCP_client, bind, put, create_queue, create_counting_semaphore,
    vSemaphoreDelete, WiFi_init, get, ret, core_WiFi_LOG, kernel_alloc.
  cbn. intros H.
  destruct (free_allocs (kernel s)) as [| [| n]]; cbn in H; try discriminate H.
  destruct (WiFi_init_result (wifi s) =? CORE_WIFI_OK); cbn in H;
    try discriminate H.
  match type of H with
  | context [wait_for_connection sched ?s0] =>
      destruct (wait_for_connection sched s0) as [u s2 | |] eqn:Hwait;
      try discriminate H
  end.
  inversion H; subst.
  apply wait_for_connection_post in Hwait.
  destruct Hwait as (Hc & Hq & _ & Hwire & Hs).
  cbn in Hq, Hwire, Hs. unfold queued. cbn.
  rewrite Hq. repeat split; try assumption; try reflexivity.
  apply Hs. discriminate.
Qed.

Lemma init_failure_cases (sched : list (list Event)) (s s1 : State)
        (r : TCP_client_return) :
  init_TCP_client sched s = Done r s1 -> r <> CORE_TCP_CLIENT_OK ->
  module_was_initialized s1 = module_was_initialized s /\
  connection_state s1 = connection_state s /\
  wifi s1 = wifi s /\
  send_cmd_task_handler s1 = None /\
  live_tasks (kernel s1) = live_tasks (kernel s) /\
  ((r = CORE_TCP_CLIENT_INIT_QUEUE_ERR /\ free_allocs (kernel s) = O /\
    cmd_TX_queue s1 = None /\ kernel s1 = kernel s) \/
   (r = CORE_TCP_CLIENT_INIT_ERR /\ WiFi_init_result (wifi s) <> CORE_WIFI_OK /\
    free_allocs (kernel s) = S (S (free_allocs (kernel s1))) /\
    cmd_TX_queue s1 = Some (xQueueCreate RX_QUEUE_LEN) /\
    connection_state_sempahore s1 = Some (xSemaphoreCreateCounting 1 1))).
Proof.
  unfold init_TCP_client, bind, put, create_queue, create_counting_semaphore,
    vSemaphoreDelete, WiFi_init, get, ret, core_WiFi_LOG, kernel_alloc.
  cbn.
  intros H Hr.
  destruct (free_allocs (kernel s)) as [| [| n]] eqn:Hm; cbn in H.
  - inversion H; subst. cbn. repeat split. left. repeat split.
  - discriminate H.
  - destruct (WiFi_init_result (wifi s) =? CORE_WIFI_OK) eqn:Ew; cbn in H.
    + destruct (wait_for_connection sched _) as [u s2 | |]; try discriminate.
      inversion H; subst. congruence.
    + inversion H; subst. cbn. repeat split. right. repeat split. lia.
Qed.

(** X2: every failing return of [init_TCP_client] leaves the flag and the
    connection state as they were, requests no connection and starts no
    task. It is either [CORE_TCP_CLIENT_INIT_QUEUE_ERR], with no kernel
    memory left and a [NULL] queue, or [CORE_TCP_CLIENT_INIT_ERR] after the
    WiFi driver refused, in which case the queue and the semaphore just
    created are kept: two kernel objects are used and not released. *)
Theorem init_TCP_client_failure (sched : list (list Event)) (s s1 : State)
        (r : TCP_client_return) :
  init_TCP_client sched s = Done r s1 -> r <> CORE_TCP_CLIENT_OK ->
  module_was_initialized s1 = module_was_initialized s /\
  connection_state s1 = connection_state s /\
  wifi s1 = wifi s /\
  send_cmd_task_handler s1 = None /\
  live_tasks (kernel s1) = live_tasks (kernel s) /\
  ((r = CORE_TCP_CLIENT_INIT_QUEUE_ERR /\ free_allocs (kernel s) = O /\
    cmd_TX_queue s1 = None /\ kernel s1 = kernel s) \/
   (r = CORE_TCP_CLIENT_INIT_ERR /\ WiFi_init_result (wifi s) <> CORE_WIFI_OK /\
    free_allocs (kernel s) = S (S (free_allocs (kernel s1))) /\
    cmd_TX_queue s1 = Some (xQueueCreate RX_QUEUE_LEN) /\
    connection_state_sempahore s1 = Some (xSemaphoreCreateCounting 1 1))).
Proof. apply init_failure_cases. Qed.

(** X3: [init_TCP_client] never returns
    [CORE_TCP_CLIENT_INIT_SEMAPHORE_ERR]: when the kernel has memory for
    the queue but not for the semaphore, the failure branch passes the
    [NULL] handle to [vSemaphoreDelete] before the return, and the kernel
    call on a [NULL] handle does not come back. *)
Theorem init_TCP_client_semaphore_failure (sched : list (list Event)) (s : State) :
  (free_allocs (kernel s) = 1%nat -> init_TCP_client sched s = Abort) /\
  (forall s1, init_TCP_client sched s
              <> Done CORE_TCP_CLIENT_INIT_SEMAPHORE_ERR s1).
Proof.
  unfold init_TCP_client, bind, put, create_queue, create_counting_semaphore,
    vSemaphoreDelete, WiFi_init, get, ret, core_WiFi_LOG, kernel_alloc.
  cbn. split.
  - intros Hm. rewrite Hm. reflexivity.
  - intros s1 H.
    destruct (free_allocs (kernel s)) as [| [| n]]; cbn in H; try discriminate H.
    destruct (WiFi_init_result (wifi s) =? CORE_WIFI_OK); cbn in H;
      try discriminate H.
    destruct (wait_for_connection sched _) as [u s2 | |]; discriminate H.
Qed.

Lemma WiFi_event_while_waiting (id : wifi_event_t) (s : State) :
  token_free s -> connection_state s = false -> send_cmd_task_handler s = None ->
  exists s1,
    WiFi_event_handler id s = Done tt s1 /\
    token_free s1 /\ connection_state s1 = false /\ send_cmd_task_handler s1 = None.
Proof.
  intros Htok Hc Hh. destruct id as [| | n]; cbn [WiFi_event_handler].
  - eexists. split; [reflexivity |]. cbn. auto.
  - destruct Htok as (sem & Hs & Hwf & Hpos).
    unfold bind at 1.
    rewrite (set_connection_state_eq (portMAX_DELAY - 1) false s sem Hs).
    rewrite (acquired_when_free sem _ Hpos).
    unfold bind, get, esp_wifi_connect, put. cbn. rewrite Hh. cbn.
    eexists. split; [reflexivity |]. cbn. repeat split; try assumption.
    eexists. split; [reflexivity |]. apply token_stays_free; assumption.
  - exists s. auto.
Qed.

Lemma wait_without_address (sched : list (list Event)) (s : State) :
  only_WiFi_events sched ->
  token_free s -> connection_state s = false -> send_cmd_task_handler s = None ->
  wait_for_connection sched s = Blocked.
Proof.
  intros Hsched. revert s.
  induction Hsched as [| evs rest Hevs _ IH]; intros s Htok Hc Hh;
    cbn [wait_for_connection];
    destruct Htok as (sem & Hs & Hwf & Hpos);
    rewrite (get_connection_state_eq MAX_TIME_TO_WAIT_TO_SEND s sem Hs);
    rewrite (acquired_when_free sem _ Hpos), Hc.
  - reflexivity.
  - assert (Hgen : forall s0, token_free s0 -> connection_state s0 = false ->
                   send_cmd_task_handler s0 = None ->
                   match handle_events evs s0 with
                   | Done _ s2 => wait_for_connection rest s2
                   | Abort => Abort
                   | Blocked => Blocked
                   end = Blocked).
    { clear - Hevs IH. induction Hevs as [| ev evs' Hev _ IHe]; intros s0 Ht Hc Hh.
      - cbn. apply IH; assumption.
      - destruct ev as [id | id]; [| contradiction].
        cbn [handle_events handle_event]. unfold bind at 1.
        destruct (WiFi_event_while_waiting id s0 Ht Hc Hh) as (s1 & Hrun & Ht1 & Hc1 & Hh1).
        rewrite Hrun. apply IHe; assumption. }
    apply Hgen.
    + eexists. split; [reflexivity |]. apply token_stays_free; assumption.
    + exact Hc.
    + exact Hh.
Qed.

(** X4: [init_TCP_client] does not return before an address is acquired:
    with memory for the queue and the semaphore, the WiFi driver started
    and the connection state false, a schedule that delivers WiFi events
    only (start, disconnections) leaves the caller polling. *)
Theorem init_TCP_client_waits_for_address (sched : list (list Event)) (s : State)
        (n : nat) :
  free_allocs (kernel s) = S (S n) ->
  WiFi_init_result (wifi s) = CORE_WIFI_OK ->
  connection_state s = false ->
  only_WiFi_events sched ->
  init_TCP_client sched s = Blocked.
Proof.
  intros Hm Hw Hc Hsched.
  unfold init_TCP_client, bind, put, create_queue, create_counting_semaphore,
    vSemaphoreDelete, WiFi_init, get, ret, core_WiFi_LOG, kernel_alloc.
  cbn. rewrite Hm. cbn. rewrite Hw. cbn.
  rewrite wait_without_address; [reflexivity | exact Hsched | | exact Hc | reflexivity].
  eexists. split; [reflexivity |]. unfold sem_wf. cbn. lia.
Qed.

(** *** The connection state accessors with the token free *)

Lemma take_give_restores (sem : Semaphore) (w : TickType_t) :
  0 < uxCount sem -> sem_wf sem ->
  snd (xSemaphoreGive (snd (xSemaphoreTake sem w))) = sem.
Proof.
  intros Hpos [Hc Hm]. unfold xSemaphoreTake, xSemaphoreGive.
  destruct (0 <? uxCount sem) eqn:E; [| lia]. cbn [snd uxCount uxMaxCount].
  destruct (uxCount sem - 1 <? uxMaxCount sem) eqn:E1; [| lia].
  destruct sem as [m c h]. cbn in *. f_equal. lia.
Qed.

Lemma with_semaphore_same (s : State) (sem : Semaphore) :
  connection_state_sempahore s = Some sem -> with_semaphore (Some sem) s = s.
Proof. intros H. destruct s. cbn in *. subst. reflexivity. Qed.

Lemma accessors_free (s : State) (w w1 : TickType_t) (b : bool) :
  token_free s ->
  get_connection_state w s = Done (connection_state s) s /\
  set_connection_state w b s = Done true (with_connection_state b s) /\
  (set_connection_state w b ;;; get_connection_state w1) s
    = Done b (with_connection_state b s).
Proof.
  intros (sem & Hs & Hwf & Hpos).
  assert (Hget : forall v s0, connection_state_sempahore s0 = Some sem ->
                 get_connection_state v s0 = Done (connection_state s0) s0).
  { intros v s0 Hs0. rewrite (get_connection_state_eq v s0 sem Hs0).
    rewrite (acquired_when_free sem _ Hpos).
    rewrite (take_give_restores sem v Hpos Hwf), (with_semaphore_same s0 sem Hs0).
    reflexivity. }
  assert (Hset : set_connection_state w b s = Done true (with_connection_state b s)).
  { rewrite (set_connection_state_eq w b s sem Hs).
    rewrite (acquired_when_free sem _ Hpos).
    rewrite (take_then_give sem w Hwf (acquired_when_free sem _ Hpos)).
    rewrite (take_give_restores sem w Hpos Hwf).
    rewrite (with_semaphore_same (with_connection_state b s) sem Hs).
    reflexivity. }
  split; [apply Hget, Hs | split; [exact Hset |]].
  unfold bind. rewrite Hset. rewrite (Hget w1 (with_connection_state b s) Hs).
  reflexivity.
Qed.

(** X5: with the token free the accessors give it back as they found it.
    A read returns the stored value and leaves the whole state unchanged;
    a write returns true and changes the connection state only; a read
    after a write returns the value written. *)
Theorem accessors_with_token_free (s : State) (w w1 : TickType_t) (b : bool) :
  token_free s ->
  get_connection_state w s = Done (connection_state s) s /\
  set_connection_state w b s = Done true (with_connection_state b s) /\
  (set_connection_state w b ;;; get_connection_state w1) s
    = Done b (with_connection_state b s).
Proof. apply accessors_free. Qed.

(** *** De-initialisation *)

(** X6: [de_init_TCP_client] clears the connection state and nothing else:
    the worker task, the stored handle, the queue with its commands and
    the flag stay as they were, also when the WiFi driver fails and the
    result is [CORE_TCP_CLIENT_DE_INIT_ERR]. A send after it, with the token
    free, is refused with [CORE_TCP_CLIENT_SEND_TIME_OUT_WARN] and does not
    reach the queue. *)
Theorem send_after_de_init (cmd : TCP_COMMAND_TYPE) (s : State) :
  module_was_initialized s = true -> token_free s ->
  exists r,
    de_init_TCP_client s = Done r (with_connection_state false s) /\
    (r = CORE_TCP_CLIENT_OK <-> de_init_WiFi_result (wifi s) = CORE_WIFI_OK) /\
    (r = CORE_TCP_CLIENT_DE_INIT_ERR <-> de_init_WiFi_result (wifi s) <> CORE_WIFI_OK) /\
    send_message cmd (with_connection_state false s)
      = Done CORE_TCP_CLIENT_SEND_TIME_OUT_WARN (with_connection_state false s).
Proof.
  intros Hi Htok.
  rewrite de_init_TCP_client_eq. eexists. split; [reflexivity |].
  split; [| split].
  - destruct (de_init_WiFi_result (wifi s) =? CORE_WIFI_OK) eqn:E; cbn;
      split; intros H; try discriminate; try reflexivity; lia.
  - destruct (de_init_WiFi_result (wifi s) =? CORE_WIFI_OK) eqn:E; cbn;
      split; intros H; try discriminate; try reflexivity; lia.
  - rewrite (send_message_initialized cmd (with_connection_state false s) Hi).
    unfold bind.
    destruct (accessors_free (with_connection_state false s)
                MAX_TIME_TO_WAIT_TO_SEND 0 false Htok) as [Hget _].
    rewrite Hget. reflexivity.
Qed.

(** *** Handlers when the write of the connection state is refused *)

Lemma task_deleted_not_alive (t : nat) (l : list nat) :
  existsb (Nat.eqb t) (filter (fun u => negb (Nat.eqb t u)) l) = false.
Proof.
  induction l as [| u rest IH]; cbn; [reflexivity |].
  destruct (Nat.eqb t u) eqn:E; cbn; [exact IH | rewrite E; exact IH].
Qed.

(** X7: both handlers ignore the result of [set_connection_state]. When
    the token is not obtained within the wait, the link-down handler
    still deletes the worker and requests a connection while the
    connection state stays as it was, and the address-acquired handler
    still starts a worker while the connection state stays as it was. *)
Theorem handlers_ignore_refused_write (s : State) (sem : Semaphore) :
  connection_state_sempahore s = Some sem ->
  acquired_within sem (portMAX_DELAY - 1) = false ->
  (forall t, send_cmd_task_handler s = Some t -> task_alive (kernel s) t = true ->
     exists s1,
       WiFi_event_handler WIFI_EVENT_STA_DISCONNECTED s = Done tt s1 /\
       connection_state s1 = connection_state s /\
       task_alive (kernel s1) t = false /\
       connect_requests (wifi s1) = S (connect_requests (wifi s))) /\
  (free_allocs (kernel s) <> O ->
     exists s1,
       IP_event_handler IP_EVENT_STA_GOT_IP s = Done tt s1 /\
       connection_state s1 = connection_state s /\
       send_cmd_task_handler s1 = Some (next_task (kernel s)) /\
       task_alive (kernel s1) (next_task (kernel s)) = true).
Proof.
  intros Hs Ha. split.
  - intros t Hh Halive.
    cbn [WiFi_event_handler]. unfold bind at 1.
    rewrite (set_connection_state_eq (portMAX_DELAY - 1) false s sem Hs), Ha.
    unfold bind, get, delete_task, vTaskDelete, esp_wifi_connect, put. cbn.
    rewrite Hh. cbn. rewrite Halive.
    eexists. split; [reflexivity |]. cbn. repeat split.
    unfold task_alive. cbn. apply task_deleted_not_alive.
  - intros Hmem.
    cbn [IP_event_handler]. unfold bind at 1.
    rewrite (set_connection_state_eq (portMAX_DELAY - 1) true s sem Hs), Ha.
    unfold bind, create_send_cmd_task, xTaskCreate, kernel_alloc. cbn.
    destruct (free_allocs (kernel s)) as [| n]; [congruence |].
    eexists. split; [reflexivity |]. cbn. repeat split.
    unfold task_alive. cbn. rewrite Nat.eqb_refl. reflexivity.
Qed.

(** *** The worker *)





(** *** Successive sends *)

Lemma send_message_online (cmd : TCP_COMMAND_TYPE) (s : State)
      (q : Queue TCP_COMMAND_TYPE) :
  online s -> cmd_TX_queue s = Some q ->
  send_message cmd s =
    Done (if negb (fst (xQueueSend q cmd (portMAX_DELAY - 1)) =? pdPASS)
          then CORE_TCP_CLIENT_CANT_INSERT_IN_QUEUE_ERR
          else CORE_TCP_CLIENT_OK)
         (with_queue (Some (snd (xQueueSend q cmd (portMAX_DELAY - 1)))) s).
Proof.
  intros (Hi & Hc & Htok) Hq.
  destruct (accessors_free s MAX_TIME_TO_WAIT_TO_SEND 0 true Htok)
    as [Hget _].
  rewrite Hc in Hget.
  exact (send_message_connected cmd s s q Hi Hget Hq).
Qed.

Lemma sends_fill_then_reject (cmds : list TCP_COMMAND_TYPE) (s : State)
        (q : Queue TCP_COMMAND_TYPE) (room : nat) :
  online s -> cmd_TX_queue s = Some q -> reader_takes_in q = None ->
  uxLength q = Z.of_nat (length (items q) + room) ->
  exists s1,
    send_messages cmds s =
      Done (repeat CORE_TCP_CLIENT_OK (Nat.min room (length cmds)) ++
            repeat CORE_TCP_CLIENT_CANT_INSERT_IN_QUEUE_ERR (length cmds - room))
           s1 /\
    queued s1 = items q ++ firstn room cmds /\
    Z.of_nat (length (queued s1)) <= uxLength q /\
    online s1.
Proof.
  revert s q room. induction cmds as [| cmd rest IH]; intros s q room Hon Hq Hr Hlen.
  - exists s. cbn. rewrite Nat.min_0_r. cbn. unfold queued. rewrite Hq.
    rewrite firstn_nil, app_nil_r. repeat split; try apply Hon. lia.
  - cbn [send_messages]. unfold bind at 1.
    rewrite (send_message_online cmd s q Hon Hq).
    unfold xQueueSend, queue_full. rewrite Hr, Hlen.
    destruct room as [| room'].
    + destruct (Z.of_nat (length (items q) + 0) <=? Z.of_nat (length (items q))) eqn:E;
        [| apply Z.leb_gt in E; lia].
      cbn [fst snd].
      destruct (IH (with_queue (Some q) s) q 0%nat) as (s1 & Hrun & Hqd & Hb & Hon1);
        try assumption; try reflexivity.
      unfold bind. rewrite Hrun.
      exists s1. cbn in Hqd |- *.
      rewrite Nat.sub_0_r in *. cbn in Hrun |- *.
      split; [reflexivity |]. split; [exact Hqd |].
      split; [rewrite <- Hlen; exact Hb | exact Hon1].
    + destruct (Z.of_nat (length (items q) + S room') <=? Z.of_nat (length (items q)))
        eqn:E; [apply Z.leb_le in E; lia |].
      cbn [fst snd].
      destruct (IH (with_queue
                      (Some (mkQueue (Z.of_nat (length (items q) + S room'))
                                     (items q ++ [cmd]) None)) s)
                   (mkQueue (Z.of_nat (length (items q) + S room'))
                            (items q ++ [cmd]) None) room')
        as (s1 & Hrun & Hqd & Hb & Hon1);
        try assumption; try reflexivity.
      { cbn. rewrite length_app. cbn. f_equal. lia. }
      unfold bind. rewrite Hrun.
      exists s1. cbn in Hqd, Hb |- *.
      split; [reflexivity |].
      split; [rewrite Hqd, <- app_assoc; reflexivity |].
      split; [exact Hb | exact Hon1].
Qed.

(** X9: successive sends while the module is online and no reader empties
    the queue: the sends are accepted in order while a slot is free, each
    further one returns [CORE_TCP_CLIENT_CANT_INSERT_IN_QUEUE_ERR] and is
    dropped, and the queue holds the accepted commands behind those it
    held, never more than its length. *)
Theorem send_messages_fill_then_reject (cmds : list TCP_COMMAND_TYPE) (s : State)
        (q : Queue TCP_COMMAND_TYPE) (room : nat) :
  online s -> cmd_TX_queue s = Some q -> reader_takes_in q = None ->
  uxLength q = Z.of_nat (length (items q) + room) ->
  exists s1,
    send_messages cmds s =
      Done (repeat CORE_TCP_CLIENT_OK (Nat.min room (length cmds)) ++
            repeat CORE_TCP_CLIENT_CANT_INSERT_IN_QUEUE_ERR (length cmds - room))
           s1 /\
    queued s1 = items q ++ firstn room cmds /\
    Z.of_nat (length (queued s1)) <= uxLength q /\
    online s1.
Proof. apply sends_fill_then_reject. Qed.


(** ** Properties of Remote_switch.c *)

(** *** Presses and turns of the dispatch task *)

Lemma press_signals (ID : Button_ID) (b : Button_ID) (h : TaskHandle_t)
      (rest : list Switch.remote_switch_info) (c : Z) (pb : Button_ID)
      (bt : Switch.Button_driver) (s : State) :
  c = 0 \/ c = 1 ->
  button_CB ID (Switch.mkSystem
                  (Switch.mkInfo b h (Some (button_semaphore c)) :: rest) pb bt s)
  = Done tt (Switch.mkSystem
               (Switch.mkInfo b h (Some (button_semaphore 1)) :: rest) ID bt s).
Proof.
  intros [Hc | Hc]; subst; reflexivity.
Qed.

Lemma turn_without_token (p : Z) (cmd : TCP_COMMAND_TYPE) (b : Button_ID)
      (h : TaskHandle_t) (rest : list Switch.remote_switch_info) (pb : Button_ID)
      (bt : Switch.Button_driver) (s : State) :
  remote_switch_handler_turn p cmd
    (Switch.mkSystem (Switch.mkInfo b h (Some (button_semaphore 0)) :: rest) pb bt s)
  = Done cmd
      (Switch.mkSystem (Switch.mkInfo b h (Some (button_semaphore 0)) :: rest) pb bt s).
Proof. reflexivity. Qed.

Lemma turn_with_token (p : Z) (cmd : TCP_COMMAND_TYPE) (b : Button_ID)
      (h : TaskHandle_t) (rest : list Switch.remote_switch_info) (pb : Button_ID)
      (bt : Switch.Button_driver) (s : State) :
  remote_switch_handler_turn p cmd
    (Switch.mkSystem (Switch.mkInfo b h (Some (button_semaphore 1)) :: rest) pb bt s)
  = match remote_switch_handler_iteration (mkWake pb p) cmd s with
    | Done r s1 =>
        Done (fst r)
             (Switch.mkSystem (Switch.mkInfo b h (Some (button_semaphore 0)) :: rest)
                              pb bt s1)
    | Abort => Abort
    | Blocked => Blocked
    end.
Proof.
  unfold remote_switch_handler_turn, bind, info_at, update_info_at, bind, info_at,
    sys_get, lift_tcp, ret.
  cbn.
  destruct (remote_switch_handler_iteration (mkWake pb p) cmd s); reflexivity.
Qed.

Lemma presses_then_press (ids : list Button_ID) (ID : Button_ID)
      (steps : list Switch_step) (cmd : TCP_COMMAND_TYPE) (b : Button_ID)
      (h : TaskHandle_t) (rest : list Switch.remote_switch_info) (c : Z)
      (pb : Button_ID) (bt : Switch.Button_driver) (s : State) :
  c = 0 \/ c = 1 ->
  switch_run (map Press ids ++ Press ID :: steps) cmd
    (Switch.mkSystem (Switch.mkInfo b h (Some (button_semaphore c)) :: rest) pb bt s)
  = switch_run steps cmd
      (Switch.mkSystem (Switch.mkInfo b h (Some (button_semaphore 1)) :: rest) ID bt s).
Proof.
  revert c pb. induction ids as [| x l IH]; intros c pb Hc; cbn [map app switch_run];
    unfold bind at 1; rewrite (press_signals _ b h rest c pb bt s Hc).
  - reflexivity.
  - apply IH. right. reflexivity.
Qed.

Lemma press_turn_step (w : Wake) (steps : list Switch_step) (cmd : TCP_COMMAND_TYPE)
      (b : Button_ID) (h : TaskHandle_t) (rest : list Switch.remote_switch_info)
      (pb : Button_ID) (bt : Switch.Button_driver) (s : State)
      (q : Queue TCP_COMMAND_TYPE) :
  ready s q ->
  exists s1,
    switch_run (Turn (presses w) :: steps) cmd
      (Switch.mkSystem (Switch.mkInfo b h (Some (button_semaphore 1)) :: rest)
                       (pressed_button w) bt s)
    = switch_run steps (handler_switch w cmd)
        (Switch.mkSystem (Switch.mkInfo b h (Some (button_semaphore 0)) :: rest)
                         (pressed_button w) bt s1) /\
    cmd_TX_queue s1 =
      Some (mkQueue (uxLength q) (items q ++ [handler_switch w cmd])
                    (reader_takes_in q)) /\
    online s1 /\ wire s1 = wire s.
Proof.
  intros Hr.
  destruct (handler_iteration_ready w cmd s q Hr)
    as (s1 & Hit & Hq & Hi & Hc & Htok & Hw).
  exists s1. split; [| repeat split; assumption].
  cbn [switch_run]. unfold bind at 1. rewrite turn_with_token.
  destruct w as [pbw pw]. cbn [pressed_button presses] in *.
  rewrite Hit. reflexivity.
Qed.

(** X11: presses that arrive before the dispatch task takes its turn
    collapse: the semaphore holds at most one token and the recorded
    button is overwritten, so after any burst of presses the task builds
    and sends one command, for the last button pressed, and its next turn
    finds no token and sends nothing. *)
Theorem burst_of_presses_collapses (ids : list Button_ID) (ID : Button_ID)
        (p p2 : Z) (cmd : TCP_COMMAND_TYPE) (sys : Switch.System)
        (i : Switch.remote_switch_info) (rest : list Switch.remote_switch_info)
        (c : Z) (q : Queue TCP_COMMAND_TYPE) :
  Switch.remote_switches_infos sys = i :: rest ->
  Switch.semaphore i = Some (button_semaphore c) -> c = 0 \/ c = 1 ->
  ready (Switch.tcp sys) q ->
  exists sys1,
    switch_run (map Press ids ++ [Press ID; Turn p; Turn p2]) cmd sys
      = Done (handler_switch (mkWake ID p) cmd) sys1 /\
    queued (Switch.tcp sys1) = items q ++ [handler_switch (mkWake ID p) cmd] /\
    Switch.pressed_button sys1 = ID /\
    Switch.remote_switches_infos sys1
      = Switch.with_sem (Some (button_semaphore 0)) i :: rest.
Proof.
  intros Hi Hs Hc Hr.
  destruct sys as [infos pb bt s]. destruct i as [b h sem]. cbn in Hi, Hs, Hr. subst.
  rewrite (presses_then_press ids ID _ cmd b h rest c pb bt s Hc).
  destruct (press_turn_step (mkWake ID p) [Turn p2] cmd b h rest pb bt s q Hr)
    as (s1 & Hrun & Hq & _ & _).
  cbn [pressed_button presses] in Hrun. rewrite Hrun.
  cbn [switch_run]. unfold bind. rewrite turn_without_token.
  eexists. split; [reflexivity |]. cbn. unfold queued. rewrite Hq.
  repeat split.
Qed.

Lemma last_cons_default {A} (x : A) (l : list A) (d : A) :
  last (x :: l) d = last l x.
Proof.
  revert x d. induction l as [| y l IH]; intros x d; [reflexivity |].
  change (last (y :: l) d = last (y :: l) x). rewrite (IH y d), (IH y x).
  reflexivity.
Qed.

Lemma press_turn_commands (wakes : list Wake) (cmd : TCP_COMMAND_TYPE)
        (sys : Switch.System) (i : Switch.remote_switch_info)
        (rest : list Switch.remote_switch_info) (c : Z)
        (q : Queue TCP_COMMAND_TYPE) :
  Switch.remote_switches_infos sys = i :: rest ->
  Switch.semaphore i = Some (button_semaphore c) -> c = 0 \/ c = 1 ->
  online (Switch.tcp sys) -> cmd_TX_queue (Switch.tcp sys) = Some q ->
  Z.of_nat (length (items q) + length wakes) <= uxLength q ->
  exists sys1,
    switch_run (press_then_turn wakes) cmd sys
      = Done (last (commands_of wakes cmd) cmd) sys1 /\
    queued (Switch.tcp sys1) = items q ++ commands_of wakes cmd /\
    length (commands_of wakes cmd) = length wakes /\
    wire (Switch.tcp sys1) = wire (Switch.tcp sys).
Proof.
  intros Hi Hs Hc Hon Hq Hroom.
  destruct sys as [infos pb bt s]. destruct i as [b h sem]. cbn in Hi, Hs, Hon, Hq. subst.
  cbn [Switch.tcp].
  revert cmd c pb s q Hc Hon Hq Hroom.
  induction wakes as [| w l IH]; intros cmd c pb s q Hc Hon Hq Hroom.
  - eexists. split; [reflexivity |]. cbn. unfold queued. rewrite Hq, app_nil_r.
    repeat split.
  - change (press_then_turn (w :: l))
      with (Press (pressed_button w) :: Turn (presses w) :: press_then_turn l).
    pose proof (presses_then_press [] (pressed_button w)
                  (Turn (presses w) :: press_then_turn l)
                  cmd b h rest c pb bt s Hc) as Hp.
    cbn [map app] in Hp. rewrite Hp. clear Hp.
    assert (Hr : ready s q).
    { destruct Hon as (H1 & H2 & H3). unfold ready. repeat split; try assumption.
      unfold queue_full. cbn [length] in Hroom.
      destruct (uxLength q <=? Z.of_nat (length (items q))) eqn:E; [| reflexivity].
      apply Z.leb_le in E. lia. }
    destruct (press_turn_step w (press_then_turn l) cmd b h rest pb bt s q Hr)
      as (s1 & Hrun & Hq1 & Hon1 & Hw1).
    rewrite Hrun.
    destruct (IH (handler_switch w cmd) 0 (pressed_button w) s1
                 (mkQueue (uxLength q) (items q ++ [handler_switch w cmd])
                          (reader_takes_in q))
                 (or_introl (eq_refl 0)) Hon1 Hq1)
      as (sys1 & Hrest & Hqd & Hlen & Hw).
    { cbn. rewrite length_app. cbn in *. lia. }
    exists sys1. cbn [commands_of].
    split.
    { rewrite Hrest. f_equal. symmetry. apply last_cons_default. }
    split; [rewrite Hqd; cbn; rewrite <- app_assoc; reflexivity |].
    split; [cbn; rewrite Hlen; reflexivity | rewrite Hw; exact Hw1].
Qed.

(** X12: when every press is followed by a turn of the dispatch task
    before the next press, and the queue has room, each press puts exactly
    one command in the queue, in the order of the presses; the commands
    are those the switch builds from the recorded button, the count read
    and the local command left by the turn before. *)
Theorem each_press_one_command (wakes : list Wake) (cmd : TCP_COMMAND_TYPE)
        (sys : Switch.System) (i : Switch.remote_switch_info)
        (rest : list Switch.remote_switch_info) (c : Z)
        (q : Queue TCP_COMMAND_TYPE) :
  Switch.remote_switches_infos sys = i :: rest ->
  Switch.semaphore i = Some (button_semaphore c) -> c = 0 \/ c = 1 ->
  online (Switch.tcp sys) -> cmd_TX_queue (Switch.tcp sys) = Some q ->
  Z.of_nat (length (items q) + length wakes) <= uxLength q ->
  exists sys1,
    switch_run (press_then_turn wakes) cmd sys
      = Done (last (commands_of wakes cmd) cmd) sys1 /\
    queued (Switch.tcp sys1) = items q ++ commands_of wakes cmd /\
    length (commands_of wakes cmd) = length wakes /\
    wire (Switch.tcp sys1) = wire (Switch.tcp sys).
Proof. apply press_turn_commands. Qed.

(** *** The token stays free through the handlers *)

Ltac kernel_call_keeps_token :=
  let H := fresh "H" in
  intros ? ? ? ? H;
  repeat match type of H with
         | context [match ?x with _ => _ end] => destruct x eqn:?
         end;
  try discriminate H; inversion H; subst; assumption.

Lemma create_task_keeps_token : preserves token_free create_send_cmd_task.
Proof. unfold create_send_cmd_task. kernel_call_keeps_token. Qed.

Lemma delete_task_keeps_token (t : nat) : preserves token_free (delete_task t).
Proof. unfold delete_task. kernel_call_keeps_token. Qed.

Lemma esp_wifi_connect_keeps_token : preserves token_free esp_wifi_connect.
Proof. apply preserves_put. intros s H. exact H. Qed.

Lemma get_connection_state_keeps_token (w : TickType_t) :
  preserves token_free (get_connection_state w).
Proof.
  intros s a s1 Ht H.
  rewrite (proj1 (accessors_free s w 0 true Ht)) in H.
  inversion H; subst. exact Ht.
Qed.

Lemma set_connection_state_keeps_token (w : TickType_t) (b : bool) :
  preserves token_free (set_connection_state w b).
Proof.
  intros s a s1 Ht H.
  rewrite (proj1 (proj2 (accessors_free s w 0 b Ht))) in H.
  inversion H; subst. exact Ht.
Qed.

Lemma handle_event_keeps_token (ev : Event) : preserves token_free (handle_event ev).
Proof.
  destruct ev as [id | id]; destruct id; cbn;
    repeat first
      [ apply preserves_ret
      | apply preserves_get
      | apply esp_wifi_connect_keeps_token
      | apply set_connection_state_keeps_token
      | apply create_task_keeps_token
      | apply delete_task_keeps_token
      | apply preserves_bind; [| intros ?]
      | match goal with
        | |- preserves _ (match ?x with _ => _ end) => destruct x
        end ].
Qed.

Lemma handle_events_keep_token (evs : list Event) :
  preserves token_free (handle_events evs).
Proof.
  induction evs as [| ev rest IH]; cbn.
  - apply preserves_ret.
  - apply preserves_bind; [apply handle_event_keeps_token | intros _; exact IH].
Qed.

Lemma wait_for_connection_keeps_token (sched : list (list Event)) :
  preserves token_free (wait_for_connection sched).
Proof.
  induction sched as [| evs rest IH]; intros s a s2 HI H; cbn in H;
    destruct (get_connection_state MAX_TIME_TO_WAIT_TO_SEND s) as [b s1 | |] eqn:Eg;
    try discriminate;
    pose proof (get_connection_state_keeps_token _ _ _ _ HI Eg) as HI1;
    destruct b; try discriminate.
  - inversion H; subst. exact HI1.
  - inversion H; subst. exact HI1.
  - destruct (handle_events evs s1) as [u s1' | |] eqn:Eh; try discriminate.
    exact (IH _ _ _ (handle_events_keep_token _ _ _ _ HI1 Eh) H).
Qed.

Lemma init_TCP_client_OK_online (sched : list (list Event)) (s s1 : State) :
  init_TCP_client sched s = Done CORE_TCP_CLIENT_OK s1 -> online s1.
Proof.
  intros H. destruct (init_TCP_client_OK_post sched s s1 H) as (Hi & Hc & _).
  split; [exact Hi | split; [exact Hc |]].
  revert H.
  unfold init_TCP_client, bind, put, create_queue, create_counting_semaphore,
    vSemaphoreDelete, WiFi_init, get, ret, core_WiFi_LOG, kernel_alloc.
  cbn. intros H.
  destruct (free_allocs (kernel s)) as [| [| n]]; cbn in H; try discriminate H.
  destruct (WiFi_init_result (wifi s) =? CORE_WIFI_OK); cbn in H;
    try discriminate H.
  match type of H with
  | context [wait_for_connection sched ?s0] =>
      destruct (wait_for_connection sched s0) as [u s2 | |] eqn:Hwait;
      try discriminate H
  end.
  inversion H; subst.
  apply wait_for_connection_keeps_token in Hwait; [exact Hwait |].
  eexists. split; [reflexivity |]. unfold sem_wf. cbn. lia.
Qed.

(** *** Initialisation and de-initialisation of a switch *)

Lemma nth_error_set_nth {A} (n : nat) (x y : A) (l : list A) :
  nth_error l n = Some y -> nth_error (set_nth n x l) n = Some x.
Proof.
  revert n. induction l as [| z l IH]; intros [| n] H; cbn in *;
    try discriminate; [reflexivity | apply IH; exact H].
Qed.

Lemma set_nth_set_nth {A} (n : nat) (x y : A) (l : list A) :
  set_nth n x (set_nth n y l) = set_nth n x l.
Proof.
  revert n. induction l as [| z l IH]; intros [| n]; cbn;
    try reflexivity. rewrite IH. reflexivity.
Qed.

Lemma info_at_eq (ID : Button_ID) (sys : Switch.System)
      (i : Switch.remote_switch_info) :
  0 <= ID -> nth_error (Switch.remote_switches_infos sys) (Z.to_nat ID) = Some i ->
  info_at ID sys = Done i sys.
Proof.
  intros H0 Hn. unfold info_at. rewrite Hn.
  destruct (0 <=? ID) eqn:E; [reflexivity | lia].
Qed.

Lemma update_info_at_eq (ID : Button_ID) (sys : Switch.System)
      (i : Switch.remote_switch_info)
      (f : Switch.remote_switch_info -> Switch.remote_switch_info) :
  0 <= ID -> nth_error (Switch.remote_switches_infos sys) (Z.to_nat ID) = Some i ->
  update_info_at ID f sys =
    Done tt (Switch.with_infos
               (set_nth (Z.to_nat ID) (f i) (Switch.remote_switches_infos sys)) sys).
Proof.
  intros H0 Hn. unfold update_info_at, bind. rewrite (info_at_eq ID sys i H0 Hn).
  reflexivity.
Qed.

Lemma init_switch_ok (ID : Button_ID) (sys : Switch.System)
        (i : Switch.remote_switch_info) (n : nat) :
  Switch.init_button_result (Switch.buttons sys) = Switch.BSP_BUTTON_OK ->
  0 <= ID -> nth_error (Switch.remote_switches_infos sys) (Z.to_nat ID) = Some i ->
  free_allocs (kernel (Switch.tcp sys)) = S (S n) ->
  init_remote_switch ID sys =
    Done Switch.CORE_REMOTE_SWITCH_OK
      (Switch.mkSystem
         (set_nth (Z.to_nat ID)
            (Switch.mkInfo (Switch.button i)
                           (Some (next_task (kernel (Switch.tcp sys))))
                           (Some (button_semaphore 0)))
            (Switch.remote_switches_infos sys))
         (Switch.pressed_button sys) (Switch.buttons sys)
         (with_kernel
            (mkKernel (next_task (kernel (Switch.tcp sys))
                         :: live_tasks (kernel (Switch.tcp sys)))
                      (S (next_task (kernel (Switch.tcp sys)))) n)
            (Switch.tcp sys))).
Proof.
  intros Hb H0 Hn Hm.
  destruct sys as [infos pb bt s]. cbn in Hb, Hn, Hm |- *.
  assert (H0b : (0 <=? ID) = true) by (apply Z.leb_le; exact H0).
  unfold init_remote_switch, bind, init_button, sys_get, lift_tcp,
    create_counting_semaphore, kernel_alloc, update_info_at, bind, info_at,
    create_handler_task, bind, info_at, xTaskCreate, kernel_alloc, ret.
  cbn. rewrite Hb, Z.eqb_refl. cbn. rewrite Hm. cbn. rewrite Hn, H0b. simpl.
  rewrite (nth_error_set_nth _ _ _ _ Hn). simpl.
  unfold update_info_at, bind, info_at. simpl.
  rewrite (nth_error_set_nth _ _ _ _ Hn), H0b. simpl.
  rewrite set_nth_set_nth. reflexivity.
Qed.

(** X13: with the button driver ready, [ID] inside the array and kernel
    memory for a semaphore and a task, [init_remote_switch] returns
    [CORE_REMOTE_SWITCH_OK]: entry [ID] holds an empty semaphore of one
    token, so the task waits for the first press, and the handle of the
    new task, which is alive; the other entries, the recorded button and
    the TCP client are untouched apart from the kernel. *)
Theorem init_remote_switch_OK (ID : Button_ID) (sys : Switch.System)
        (i : Switch.remote_switch_info) (n : nat) :
  Switch.init_button_result (Switch.buttons sys) = Switch.BSP_BUTTON_OK ->
  0 <= ID -> nth_error (Switch.remote_switches_infos sys) (Z.to_nat ID) = Some i ->
  free_allocs (kernel (Switch.tcp sys)) = S (S n) ->
  init_remote_switch ID sys =
    Done Switch.CORE_REMOTE_SWITCH_OK
      (Switch.mkSystem
         (set_nth (Z.to_nat ID)
            (Switch.mkInfo (Switch.button i)
                           (Some (next_task (kernel (Switch.tcp sys))))
                           (Some (button_semaphore 0)))
            (Switch.remote_switches_infos sys))
         (Switch.pressed_button sys) (Switch.buttons sys)
         (with_kernel
            (mkKernel (next_task (kernel (Switch.tcp sys))
                         :: live_tasks (kernel (Switch.tcp sys)))
                      (S (next_task (kernel (Switch.tcp sys)))) n)
            (Switch.tcp sys))).
Proof. apply init_switch_ok. Qed.

(** X14: every failing return of [init_remote_switch] is
    [CORE_REMOTE_SWITCH_INIT_ERR]. Either the button driver refused and
    nothing changed, or the kernel had memory for the semaphore only: the
    semaphore stays stored in the entry and is not released, and the
    failure branch deletes the task named by the handle the entry held
    before the call, that is the running task of an earlier
    initialisation if there was one. *)
Theorem init_remote_switch_failure (ID : Button_ID) (sys sys1 : Switch.System)
        (i : Switch.remote_switch_info) (r : Switch.Remote_switch_return) :
  0 <= ID -> nth_error (Switch.remote_switches_infos sys) (Z.to_nat ID) = Some i ->
  init_remote_switch ID sys = Done r sys1 -> r <> Switch.CORE_REMOTE_SWITCH_OK ->
  r = Switch.CORE_REMOTE_SWITCH_INIT_ERR /\
  ((Switch.init_button_result (Switch.buttons sys) <> Switch.BSP_BUTTON_OK /\
    sys1 = sys) \/
   (Switch.init_button_result (Switch.buttons sys) = Switch.BSP_BUTTON_OK /\
    free_allocs (kernel (Switch.tcp sys)) = 1%nat /\
    nth_error (Switch.remote_switches_infos sys1) (Z.to_nat ID)
      = Some (Switch.with_sem (Some (button_semaphore 0)) i) /\
    match Switch.task_handler i with
    | None => free_allocs (kernel (Switch.tcp sys1)) = O /\
              live_tasks (kernel (Switch.tcp sys1))
                = live_tasks (kernel (Switch.tcp sys))
    | Some t => task_alive (kernel (Switch.tcp sys)) t = true /\
                task_alive (kernel (Switch.tcp sys1)) t = false
    end)).
Proof.
  intros H0 Hn H Hr.
  destruct sys as [infos pb bt s]. cbn in Hn |- *.
  assert (H0b : (0 <=? ID) = true) by (apply Z.leb_le; exact H0).
  unfold init_remote_switch, bind, init_button, sys_get, lift_tcp,
    create_counting_semaphore, kernel_alloc, update_info_at, bind, info_at,
    create_handler_task, bind, info_at, xTaskCreate, kernel_alloc, ret,
    vSemaphoreDelete in H.
  cbn in H.
  destruct (Switch.init_button_result bt =? Switch.BSP_BUTTON_OK) eqn:Eb; cbn in H.
  2:{ inversion H; subst. split; [reflexivity |]. left. split; [lia | reflexivity]. }
  apply Z.eqb_eq in Eb.
  destruct (free_allocs (kernel s)) as [| [| n]] eqn:Hm; cbn in H.
  - rewrite Hn, H0b in H. discriminate H.
  - rewrite Hn, H0b in H. simpl in H.
    rewrite (nth_error_set_nth _ _ _ _ Hn) in H. simpl in H.
    rewrite (nth_error_set_nth _ _ _ _ Hn) in H. simpl in H.
    destruct i as [bi hi si]. cbn in H |- *.
    destruct hi as [t |]; cbn in H.
    + unfold delete_task, vTaskDelete in H. cbn in H.
      destruct (existsb (Nat.eqb t) (live_tasks (kernel s))) eqn:Ealive; cbn in H;
        [| discriminate H].
      inversion H; subst. split; [reflexivity |]. right.
      split; [exact Eb |]. split; [reflexivity |]. cbn.
      split; [exact (nth_error_set_nth _ _ _ _ Hn) |].
      split; [exact Ealive |]. unfold task_alive. cbn. apply task_deleted_not_alive.
    + inversion H; subst. split; [reflexivity |]. right.
      split; [exact Eb |]. split; [reflexivity |]. cbn.
      split; [exact (nth_error_set_nth _ _ _ _ Hn) | split; reflexivity].
  - rewrite Hn, H0b in H. simpl in H.
    rewrite (nth_error_set_nth _ _ _ _ Hn) in H. simpl in H.
    unfold update_info_at, bind, info_at in H. simpl in H.
    rewrite (nth_error_set_nth _ _ _ _ Hn), H0b in H. simpl in H.
    inversion H; subst. congruence.
Qed.


(** *** Start-up and the first press *)



Lemma init_ok_ready (sched : list (list Event)) (s s1 : State) :
  init_TCP_client sched s = Done CORE_TCP_CLIENT_OK s1 ->
  ready s1 (xQueueCreate RX_QUEUE_LEN) /\ queued s1 = [] /\ wire s1 = wire s.
Proof.
  intros H.
  destruct (init_TCP_client_OK_post sched s s1 H) as (_ & _ & Hq & Hqd & _ & Hw).
  destruct (init_TCP_client_OK_online sched s s1 H) as (Hi & Hc & Htok).
  split; [| split; assumption].
  unfold ready. repeat split; assumption.
Qed.

(** X1: when [init_TCP_client] returns [CORE_TCP_CLIENT_OK] the module is
    ready for a send: it is flagged initialised, the connection state is
    true, the token is free, and the command queue is a fresh empty queue
    of ten entries whatever was queued before; nothing was written to the
    gateway. *)
Theorem init_TCP_client_OK_ready (sched : list (list Event)) (s s1 : State) :
  init_TCP_client sched s = Done CORE_TCP_CLIENT_OK s1 ->
  ready s1 (xQueueCreate RX_QUEUE_LEN) /\ queued s1 = [] /\ wire s1 = wire s.
Proof. apply init_ok_ready. Qed.

(** *** Re-initialisation and the worker of the session before *)














(** *** Entries of the array other than the first *)

(** X18: the button callback and the dispatch task use the semaphore of
    entry [BUTTON_0] only, whatever button was pressed and whichever
    entry the task was created for: no run of presses and turns changes
    another entry of the array, so a semaphore created for another button
    is never given and never taken. *)
Theorem switch_run_uses_first_entry_only (steps : list Switch_step)
        (cmd cmd1 : TCP_COMMAND_TYPE) (sys sys1 : Switch.System) :
  switch_run steps cmd sys = Done cmd1 sys1 ->
  tl (Switch.remote_switches_infos sys1) = tl (Switch.remote_switches_infos sys) /\
  Switch.buttons sys1 = Switch.buttons sys.
Proof.
  revert cmd sys. induction steps as [| st rest IH]; intros cmd sys H.
  - inversion H; subst. split; reflexivity.
  - destruct sys as [infos pb bt s].
    destruct st as [ID | p]; cbn [switch_run] in H; unfold bind at 1 in H.
    + unfold button_CB, bind, sys_put, info_at, update_info_at, bind, info_at, crash
        in H.
      cbn in H.
      destruct infos as [| i l]; cbn in H; try discriminate H.
      destruct (Switch.semaphore i); cbn in H; try discriminate H.
      apply IH in H. exact H.
    + unfold remote_switch_handler_turn, bind, info_at, update_info_at, bind,
        info_at, crash, sys_get, lift_tcp, ret in H.
      cbn in H.
      destruct infos as [| i l]; cbn in H; try discriminate H.
      destruct (Switch.semaphore i) as [sem |]; cbn in H; try discriminate H.
      destruct (fst (xSemaphoreTake sem portMAX_DELAY) =? pdTRUE); cbn in H.
      * destruct (remote_switch_handler_iteration (mkWake pb p) cmd s)
          as [r s0 | |]; try discriminate H.
        apply IH in H. exact H.
      * apply IH in H. exact H.
Qed.

(** *** Stopping and starting the client *)

(** X19: [remote_switch_stop_client] followed by
    [remote_switch_start_client]. The stop reports
    [CORE_REMOTE_SWITCH_OK] exactly when the WiFi driver stopped; a failing
    start is always [CORE_REMOTE_SWITCH_START_CLIENT_ERR], whatever the
    client's own code was, and leaves the flag as it was; a start that
    reports [CORE_REMOTE_SWITCH_OK] leaves the client ready with a fresh
    empty queue, so commands still queued at the stop are lost. The
    switches' entries and the recorded button are not touched. *)
Theorem stop_then_start_client (sched : list (list Event))
        (sys sys1 sys2 : Switch.System) (r1 r2 : Switch.Remote_switch_return) :
  remote_switch_stop_client sys = Done r1 sys1 ->
  remote_switch_start_client sched sys1 = Done r2 sys2 ->
  (r1 = Switch.CORE_REMOTE_SWITCH_OK <->
   de_init_WiFi_result (wifi (Switch.tcp sys)) = CORE_WIFI_OK) /\
  (r1 <> Switch.CORE_REMOTE_SWITCH_OK -> r1 = Switch.CORE_REMOTE_SWITCH_STOP_CLIENT_ERR) /\
  (r2 = Switch.CORE_REMOTE_SWITCH_OK ->
   ready (Switch.tcp sys2) (xQueueCreate RX_QUEUE_LEN) /\
   queued (Switch.tcp sys2) = [] /\
   wire (Switch.tcp sys2) = wire (Switch.tcp sys)) /\
  (r2 <> Switch.CORE_REMOTE_SWITCH_OK ->
   r2 = Switch.CORE_REMOTE_SWITCH_START_CLIENT_ERR /\
   module_was_initialized (Switch.tcp sys2) = module_was_initialized (Switch.tcp sys)) /\
  Switch.remote_switches_infos sys2 = Switch.remote_switches_infos sys /\
  Switch.pressed_button sys2 = Switch.pressed_button sys.
Proof.
  intros Hstop Hstart.
  destruct sys as [infos pb bt s].
  unfold remote_switch_stop_client, bind, lift_tcp, core_TCP_client_LOG, ret in Hstop.
  cbn [Switch.tcp] in Hstop. rewrite de_init_TCP_client_eq in Hstop.
  unfold remote_switch_start_client, bind, lift_tcp, core_TCP_client_LOG, ret in Hstart.
  cbn [Switch.tcp].
  assert (Hsys1 : sys1 = Switch.mkSystem infos pb bt (with_connection_state false s)).
  { destruct (de_init_WiFi_result (wifi s) =? CORE_WIFI_OK); cbn in Hstop;
      inversion Hstop; reflexivity. }
  subst sys1. cbn [Switch.tcp] in Hstart.
  destruct (init_TCP_client sched (with_connection_state false s))
    as [r s2 | |] eqn:Einit; try discriminate Hstart.
  split; [| split].
  - destruct (de_init_WiFi_result (wifi s) =? CORE_WIFI_OK) eqn:Ew; cbn in Hstop;
      inversion Hstop; subst; split; intros H; try discriminate H; try reflexivity; lia.
  - destruct (de_init_WiFi_result (wifi s) =? CORE_WIFI_OK) eqn:Ew; cbn in Hstop;
      inversion Hstop; subst; intros H; [contradiction | reflexivity].
  - assert (Hsys2 : sys2 = Switch.mkSystem infos pb bt s2).
    { destruct r; cbn in Hstart; inversion Hstart; reflexivity. }
    subst sys2. cbn.
    split; [| split; [| split; reflexivity]].
    + intros Hr2.
      assert (Hr : r = CORE_TCP_CLIENT_OK).
      { destruct r; cbn in Hstart; inversion Hstart; subst;
          try discriminate; reflexivity. }
      subst r. exact (init_ok_ready sched _ s2 Einit).
    + intros Hr2.
      assert (Hr : r <> CORE_TCP_CLIENT_OK).
      { intros Hr. subst r. cbn in Hstart. inversion Hstart. congruence. }
      split.
      * destruct r; cbn in Hstart; inversion Hstart; subst;
          try reflexivity; contradiction.
      * destruct (init_failure_cases sched _ s2 r Einit Hr) as (Hi & _).
        exact Hi.
Qed.

End Firmware.

(** ** The results at sample inputs *)

Lemma C1_level_cycling_witness :
  8 <= uint8_bits /\ 0 <= 0 < 2 ^ 64 /\
  pwm (handler_switch uint8_bits (mkWake BUTTON_1 0) stale_cmd) = 20 /\
  map (fun i => pwm (handler_switch uint8_bits (mkWake BUTTON_1 (0 + i)) stale_cmd))
      [1; 2; 3; 4; 5; 6; 7; 8; 9]
  = [30; 40; 50; 60; 70; 80; 90; 100; 20].
Proof.
  assert (Hw : 8 <= uint8_bits) by (unfold uint8_bits; lia).
  assert (Hn : 0 <= 0 < 2 ^ 64) by (split; [lia | reflexivity]).
  split; [exact Hw | split; [exact Hn |]].
  destruct (C1_level_cycling uint8_bits 0 stale_cmd Hw Hn)
    as (_ & _ & _ & _ & Hp & Hcycle).
  split; [rewrite Hp; reflexivity | apply Hcycle; reflexivity].
Defined.

Lemma C8_wrap_branch_unreachable_witness :
  8 <= uint8_bits /\ 0 <= 17 < 2 ^ 64 /\
  (duty_cycle_of_presses uint8_bits (uint64 17) >? MAX_DUTY_CYCLE_PERC) = false /\
  In (pwm (handler_switch uint8_bits (mkWake BUTTON_1 17) stale_cmd))
     [20; 30; 40; 50; 60; 70; 80; 90; 100].
Proof.
  assert (Hw : 8 <= uint8_bits) by (unfold uint8_bits; lia).
  assert (Hn : 0 <= 17 < 2 ^ 64) by (split; [lia | reflexivity]).
  split; [exact Hw | split; [exact Hn |]].
  exact (proj2 (C8_wrap_branch_unreachable uint8_bits 17 stale_cmd Hw Hn)).
Defined.

Lemma C7_accessors_fail_safe_witness :
  sem_wf held_semaphore /\
  acquired_within held_semaphore 100 = false /\
  (exists s1, get_connection_state 100 sample_token_held = Done false s1 /\
              connection_state s1 = true) /\
  (exists s1, set_connection_state 100 false sample_token_held = Done false s1 /\
              connection_state s1 = true) /\
  (exists s1, set_connection_state 100 true sample_disconnected = Done true s1 /\
              connection_state s1 = true).
Proof.
  assert (Hheld : sem_wf held_semaphore) by (unfold sem_wf; cbn; lia).
  assert (Hfree : sem_wf (xSemaphoreCreateCounting 1 1)) by (unfold sem_wf; cbn; lia).
  split; [exact Hheld | split; [reflexivity |]].
  destruct (C7_accessors_fail_safe sample_token_held held_semaphore 100 false
                                   eq_refl Hheld) as [Hno _].
  destruct (C7_accessors_fail_safe sample_disconnected
                                   (xSemaphoreCreateCounting 1 1) 100 true
                                   eq_refl Hfree) as [_ Hyes].
  destruct (Hno eq_refl) as [Hget Hset].
  destruct (Hyes eq_refl) as [_ Hset1].
  split; [exact Hget | split; [exact Hset | exact Hset1]].
Defined.

Lemma C2_send_refused_witness :
  send_message esp_portMAX_DELAY esp_portTICK_PERIOD_MS sample_cmd sample_boot
    = Done CORE_TCP_CLIENT_MODULE_WAS_NOT_INIT_ERR sample_boot /\
  (exists s1,
     send_message esp_portMAX_DELAY esp_portTICK_PERIOD_MS sample_cmd sample_disconnected
       = Done CORE_TCP_CLIENT_SEND_TIME_OUT_WARN s1 /\
     cmd_TX_queue s1 = cmd_TX_queue sample_disconnected) /\
  (exists s1,
     send_message esp_portMAX_DELAY esp_portTICK_PERIOD_MS sample_cmd sample_token_held
       = Done CORE_TCP_CLIENT_SEND_TIME_OUT_WARN s1 /\
     cmd_TX_queue s1 = cmd_TX_queue sample_token_held).
Proof.
  split; [| split].
  - exact (proj1 (C2_send_refused esp_portMAX_DELAY esp_portTICK_PERIOD_MS
                                  sample_cmd sample_boot) eq_refl).
  - eexists.
    exact (proj2 (C2_send_refused esp_portMAX_DELAY esp_portTICK_PERIOD_MS
                                  sample_cmd sample_disconnected)
                 _ eq_refl eq_refl).
  - eexists.
    exact (proj2 (C2_send_refused esp_portMAX_DELAY esp_portTICK_PERIOD_MS
                                  sample_cmd sample_token_held)
                 _ eq_refl eq_refl).
Defined.

Lemma sample_connected_ready : ready sample_connected (xQueueCreate RX_QUEUE_LEN).
Proof.
  unfold ready. repeat split.
  exists (xSemaphoreCreateCounting 1 1).
  unfold sem_wf. cbn. repeat split; lia.
Defined.

Lemma C5_queue_insertion_witness :
  (exists s2,
     send_message esp_portMAX_DELAY esp_portTICK_PERIOD_MS stale_cmd sample_connected
       = Done CORE_TCP_CLIENT_OK s2 /\
     queued s2 = [stale_cmd]) /\
  (exists s2,
     send_message esp_portMAX_DELAY esp_portTICK_PERIOD_MS stale_cmd
                  (sample_queue_full (Some 250))
       = Done CORE_TCP_CLIENT_OK s2 /\
     queued s2 = repeat sample_cmd 9 ++ [stale_cmd]) /\
  (exists s2,
     send_message esp_portMAX_DELAY esp_portTICK_PERIOD_MS stale_cmd
                  (sample_queue_full None)
       = Done CORE_TCP_CLIENT_CANT_INSERT_IN_QUEUE_ERR s2 /\
     queued s2 = repeat sample_cmd 10).
Proof.
  split; [| split].
  - destruct (C5_queue_insertion esp_portMAX_DELAY esp_portTICK_PERIOD_MS stale_cmd
                sample_connected _ (xQueueCreate RX_QUEUE_LEN)
                eq_refl eq_refl eq_refl eq_refl) as (_ & Hroom & _).
    apply Hroom. cbn. lia.
  - destruct (C5_queue_insertion esp_portMAX_DELAY esp_portTICK_PERIOD_MS stale_cmd
                (sample_queue_full (Some 250)) _ (full_queue (Some 250))
                eq_refl eq_refl eq_refl eq_refl) as (_ & _ & Hfreed & _).
    apply (Hfreed ltac:(cbn; lia) 250 eq_refl). unfold esp_portMAX_DELAY. lia.
  - destruct (C5_queue_insertion esp_portMAX_DELAY esp_portTICK_PERIOD_MS stale_cmd
                (sample_queue_full None) _ (full_queue None)
                eq_refl eq_refl eq_refl eq_refl) as (_ & _ & _ & Hfull).
    apply Hfull; [cbn; lia | intros d Hd; discriminate Hd].
Defined.

Lemma C3_de_init_writes_without_token_witness :
  acquired_within held_semaphore 100 = false /\
  connection_state sample_token_held = true /\
  (exists s1, set_connection_state 100 false sample_token_held = Done false s1 /\
              connection_state s1 = true) /\
  (exists r s1, de_init_TCP_client sample_token_held = Done r s1 /\
                connection_state s1 = false /\
                connection_state_sempahore s1 = Some held_semaphore).
Proof.
  split; [reflexivity | split; [reflexivity |]].
  exact (C3_de_init_writes_without_token sample_token_held held_semaphore 100
                                         eq_refl eq_refl eq_refl).
Defined.

Lemma C4_unrecognized_button_is_forwarded_witness :
  2 <> BUTTON_0 /\ 2 <> BUTTON_1 /\
  exists s1,
    remote_switch_handler_iteration esp_portMAX_DELAY esp_portTICK_PERIOD_MS
                                    uint8_bits (mkWake 2 5) stale_cmd sample_connected
      = Done (stale_cmd, CORE_TCP_CLIENT_OK) s1 /\
    queued s1 = [stale_cmd].
Proof.
  assert (H0 : 2 <> BUTTON_0) by (unfold BUTTON_0; lia).
  assert (H1 : 2 <> BUTTON_1) by (unfold BUTTON_1; lia).
  split; [exact H0 | split; [exact H1 |]].
  exact (C4_unrecognized_button_is_forwarded esp_portMAX_DELAY esp_portTICK_PERIOD_MS
           uint8_bits (mkWake 2 5) stale_cmd sample_connected
           (xQueueCreate RX_QUEUE_LEN) H0 H1 sample_connected_ready).
Defined.

Lemma C10_toggle_level_unset_witness :
  (exists s1 s2,
     remote_switch_handler_iteration esp_portMAX_DELAY esp_portTICK_PERIOD_MS
                                     uint8_bits (mkWake BUTTON_0 1) stale_cmd
                                     sample_connected
       = Done (mkCmd LED_0 TOOGLE_LED 173, CORE_TCP_CLIENT_OK) s1 /\
     queued s1 = [mkCmd LED_0 TOOGLE_LED 173] /\
     cmd_TX_func_iteration esp_portMAX_DELAY (mkSockets 3 0) s1 = Done tt s2 /\
     wire s2 = [mkCmd LED_0 TOOGLE_LED 173]) /\
  (exists s2,
     remote_switch_handler_func esp_portMAX_DELAY esp_portTICK_PERIOD_MS uint8_bits
                                [mkWake BUTTON_1 4; mkWake BUTTON_0 1] stale_cmd
                                sample_connected
       = Done (mkCmd LED_0 TOOGLE_LED 60) s2 /\
     queued s2 = [mkCmd LED_0 SET_PWM 60; mkCmd LED_0 TOOGLE_LED 60]).
Proof.
  destruct (C10_toggle_level_unset esp_portMAX_DELAY esp_portTICK_PERIOD_MS
              uint8_bits stale_cmd 1 (mkSockets 3 0) sample_connected
              (xQueueCreate RX_QUEUE_LEN) sample_connected_ready eq_refl
              ltac:(unfold xQueueCreate, RX_QUEUE_LEN; cbn; lia)
              ltac:(cbn; lia) eq_refl)
    as (_ & Hfirst & Hlater).
  split; [exact Hfirst | exact (Hlater (mkWake BUTTON_1 4))].
Defined.

Lemma C9_initialized_flag_is_sticky_witness :
  exists s1 s2,
    init_TCP_client esp_portMAX_DELAY esp_portTICK_PERIOD_MS
                    [[WiFi_event WIFI_EVENT_STA_START]; [IP_event IP_EVENT_STA_GOT_IP]]
                    sample_boot
      = Done CORE_TCP_CLIENT_OK s1 /\
    calls esp_portMAX_DELAY esp_portTICK_PERIOD_MS
          [Call_send sample_cmd; Call_de_init;
           Call_event (WiFi_event WIFI_EVENT_STA_DISCONNECTED)] s1
      = Done tt s2 /\
    module_was_initialized s2 = true /\
    connection_state s2 = false /\
    (forall cmd r s3,
       send_message esp_portMAX_DELAY esp_portTICK_PERIOD_MS cmd s2 = Done r s3 ->
       r <> CORE_TCP_CLIENT_MODULE_WAS_NOT_INIT_ERR).
Proof.
  pose (s1 := final_state
                (init_TCP_client esp_portMAX_DELAY esp_portTICK_PERIOD_MS
                   [[WiFi_event WIFI_EVENT_STA_START]; [IP_event IP_EVENT_STA_GOT_IP]]
                   sample_boot) sample_boot).
  pose (s2 := final_state
                (calls esp_portMAX_DELAY esp_portTICK_PERIOD_MS
                   [Call_send sample_cmd; Call_de_init;
                    Call_event (WiFi_event WIFI_EVENT_STA_DISCONNECTED)] s1) s1).
  assert (Hinit : init_TCP_client esp_portMAX_DELAY esp_portTICK_PERIOD_MS
                    [[WiFi_event WIFI_EVENT_STA_START]; [IP_event IP_EVENT_STA_GOT_IP]]
                    sample_boot = Done CORE_TCP_CLIENT_OK s1)
    by (vm_compute; reflexivity).
  assert (Hcalls : calls esp_portMAX_DELAY esp_portTICK_PERIOD_MS
                     [Call_send sample_cmd; Call_de_init;
                      Call_event (WiFi_event WIFI_EVENT_STA_DISCONNECTED)] s1
                   = Done tt s2)
    by (vm_compute; reflexivity).
  exists s1, s2.
  destruct (C9_initialized_flag_is_sticky esp_portMAX_DELAY esp_portTICK_PERIOD_MS
              _ sample_boot s1 _ s2 Hinit Hcalls) as (_ & Hflag & _ & Hsend).
  split; [exact Hinit | split; [exact Hcalls | split; [exact Hflag |]]].
  split; [vm_compute; reflexivity | exact Hsend].
Defined.

(** After an initialisation during which the address arrives, the state is
    settled and connected, so the alternating runs above start from it. *)
Lemma init_reaches_settled :
  exists s1,
    init_TCP_client esp_portMAX_DELAY esp_portTICK_PERIOD_MS
                    [[WiFi_event WIFI_EVENT_STA_START]; [IP_event IP_EVENT_STA_GOT_IP]]
                    sample_boot
      = Done CORE_TCP_CLIENT_OK s1 /\
    settled s1 /\ connection_state s1 = true.
Proof.
  eexists. split; [vm_compute; reflexivity |].
  split; [| reflexivity].
  split.
  - eexists. split; [reflexivity |]. unfold sem_wf. cbn. lia.
  - cbn. exists 0%nat. split; reflexivity.
Qed.

(** ** The further properties at sample inputs *)

Lemma sample_connected_online : online sample_connected.
Proof.
  split; [reflexivity | split; [reflexivity |]].
  exists (xSemaphoreCreateCounting 1 1). unfold sem_wf. cbn. repeat split; lia.
Defined.

Lemma init_TCP_client_OK_ready_witness :
  exists s1,
    init_TCP_client esp_portMAX_DELAY esp_portTICK_PERIOD_MS
      [[WiFi_event WIFI_EVENT_STA_START]; [IP_event IP_EVENT_STA_GOT_IP]]
      sample_three_queued
    = Done CORE_TCP_CLIENT_OK s1 /\
    ready s1 (xQueueCreate RX_QUEUE_LEN) /\ queued s1 = [].
Proof.
  pose (s1 := final_state
                (init_TCP_client esp_portMAX_DELAY esp_portTICK_PERIOD_MS
                   [[WiFi_event WIFI_EVENT_STA_START]; [IP_event IP_EVENT_STA_GOT_IP]]
                   sample_three_queued) sample_three_queued).
  assert (Hinit : init_TCP_client esp_portMAX_DELAY esp_portTICK_PERIOD_MS
                    [[WiFi_event WIFI_EVENT_STA_START]; [IP_event IP_EVENT_STA_GOT_IP]]
                    sample_three_queued = Done CORE_TCP_CLIENT_OK s1)
    by (vm_compute; reflexivity).
  exists s1.
  destruct (init_TCP_client_OK_ready esp_portMAX_DELAY esp_portTICK_PERIOD_MS
              _ _ s1 Hinit) as (Hr & Hq & _).
  split; [exact Hinit | split; [exact Hr | exact Hq]].
Defined.

Lemma init_TCP_client_failure_witness :
  exists s1,
    init_TCP_client esp_portMAX_DELAY esp_portTICK_PERIOD_MS []
      (power_on (mkKernel [] 0 8) (mkWiFi 3 CORE_WIFI_OK 0))
    = Done CORE_TCP_CLIENT_INIT_ERR s1 /\
    module_was_initialized s1 = false /\
    connection_state_sempahore s1 = Some (xSemaphoreCreateCounting 1 1) /\
    free_allocs (kernel s1) = 6%nat.
Proof.
  pose (s0 := power_on (mkKernel [] 0 8) (mkWiFi 3 CORE_WIFI_OK 0)).
  pose (s1 := final_state
                (init_TCP_client esp_portMAX_DELAY esp_portTICK_PERIOD_MS [] s0) s0).
  assert (Hinit : init_TCP_client esp_portMAX_DELAY esp_portTICK_PERIOD_MS [] s0
                  = Done CORE_TCP_CLIENT_INIT_ERR s1)
    by (vm_compute; reflexivity).
  exists s1.
  destruct (init_TCP_client_failure esp_portMAX_DELAY esp_portTICK_PERIOD_MS
              [] s0 s1 CORE_TCP_CLIENT_INIT_ERR Hinit ltac:(discriminate))
    as (Hi & _ & _ & _ & _ & [(Hr & _) | (_ & _ & Hm & _ & Hs)]);
    [discriminate Hr |].
  split; [exact Hinit | split; [exact Hi | split; [exact Hs |]]].
  change (8%nat = S (S (free_allocs (kernel s1)))) in Hm. lia.
Defined.

Lemma init_TCP_client_waits_for_address_witness :
  init_TCP_client esp_portMAX_DELAY esp_portTICK_PERIOD_MS
    [[WiFi_event WIFI_EVENT_STA_START];
     [WiFi_event WIFI_EVENT_STA_DISCONNECTED; WiFi_event (WIFI_EVENT_OTHER 4)];
     [WiFi_event WIFI_EVENT_STA_DISCONNECTED]]
    sample_boot
  = Blocked.
Proof.
  apply (init_TCP_client_waits_for_address esp_portMAX_DELAY esp_portTICK_PERIOD_MS
           _ sample_boot 6); try reflexivity.
  repeat constructor.
Defined.

Lemma accessors_with_token_free_witness :
  get_connection_state 100 sample_connected = Done true sample_connected /\
  (set_connection_state 100 false ;;; get_connection_state 7) sample_connected
    = Done false sample_disconnected.
Proof.
  destruct (accessors_with_token_free sample_connected 100 7 false
              (proj2 (proj2 sample_connected_online))) as (Hget & _ & Hsetget).
  split; [exact Hget | exact Hsetget].
Defined.

Lemma send_after_de_init_witness :
  de_init_TCP_client sample_connected = Done CORE_TCP_CLIENT_OK sample_disconnected /\
  send_message esp_portMAX_DELAY esp_portTICK_PERIOD_MS sample_cmd sample_disconnected
    = Done CORE_TCP_CLIENT_SEND_TIME_OUT_WARN sample_disconnected.
Proof.
  destruct (send_after_de_init esp_portMAX_DELAY esp_portTICK_PERIOD_MS sample_cmd
              sample_connected eq_refl (proj2 (proj2 sample_connected_online)))
    as (r & Hd & Hok & _ & Hsend).
  split; [| exact Hsend].
  rewrite Hd. f_equal. apply Hok. reflexivity.
Defined.

Lemma handlers_ignore_refused_write_witness :
  exists s1,
    WiFi_event_handler esp_portMAX_DELAY WIFI_EVENT_STA_DISCONNECTED sample_token_held
      = Done tt s1 /\
    connection_state s1 = true /\ task_alive (kernel s1) 0 = false.
Proof.
  destruct (handlers_ignore_refused_write esp_portMAX_DELAY sample_token_held
              held_semaphore eq_refl eq_refl) as [Hdown _].
  destruct (Hdown 0%nat eq_refl eq_refl) as (s1 & Hrun & Hc & Ht & _).
  exists s1. split; [exact Hrun | split; [exact Hc | exact Ht]].
Defined.


Lemma send_messages_fill_then_reject_witness :
  exists s1,
    send_messages esp_portMAX_DELAY esp_portTICK_PERIOD_MS
      [stale_cmd; sample_cmd; stale_cmd; stale_cmd] sample_eight_queued
    = Done [CORE_TCP_CLIENT_OK; CORE_TCP_CLIENT_OK;
            CORE_TCP_CLIENT_CANT_INSERT_IN_QUEUE_ERR;
            CORE_TCP_CLIENT_CANT_INSERT_IN_QUEUE_ERR] s1 /\
    queued s1 = repeat sample_cmd 8 ++ [stale_cmd; sample_cmd].
Proof.
  destruct (send_messages_fill_then_reject esp_portMAX_DELAY esp_portTICK_PERIOD_MS
              [stale_cmd; sample_cmd; stale_cmd; stale_cmd] sample_eight_queued
              _ 2 sample_connected_online eq_refl eq_refl eq_refl)
    as (s1 & Hrun & Hq & _).
  exists s1. split; [exact Hrun | exact Hq].
Defined.


Lemma sample_system_ready :
  ready (Switch.tcp sample_system) (xQueueCreate RX_QUEUE_LEN).
Proof.
  unfold ready. repeat split.
  exists (xSemaphoreCreateCounting 1 1). unfold sem_wf. cbn. repeat split; lia.
Defined.

Lemma burst_of_presses_collapses_witness :
  exists sys1,
    switch_run esp_portMAX_DELAY esp_portTICK_PERIOD_MS uint8_bits
      [Press BUTTON_1; Press BUTTON_1; Press BUTTON_0; Turn 2; Turn 2]
      stale_cmd sample_system
    = Done (mkCmd LED_0 TOOGLE_LED 173) sys1 /\
    queued (Switch.tcp sys1) = [mkCmd LED_0 TOOGLE_LED 173].
Proof.
  destruct (burst_of_presses_collapses esp_portMAX_DELAY esp_portTICK_PERIOD_MS
              uint8_bits [BUTTON_1; BUTTON_1] BUTTON_0 2 2 stale_cmd sample_system
              _ _ 0 _ eq_refl eq_refl (or_introl eq_refl) sample_system_ready)
    as (sys1 & Hrun & Hq & _).
  exists sys1. split; [exact Hrun | exact Hq].
Defined.

Lemma each_press_one_command_witness :
  exists sys1,
    switch_run esp_portMAX_DELAY esp_portTICK_PERIOD_MS uint8_bits
      [Press BUTTON_0; Turn 0; Press BUTTON_1; Turn 4; Press BUTTON_0; Turn 4]
      stale_cmd sample_system
    = Done (mkCmd LED_0 TOOGLE_LED 60) sys1 /\
    queued (Switch.tcp sys1)
    = [mkCmd LED_0 TOOGLE_LED 173; mkCmd LED_0 SET_PWM 60; mkCmd LED_0 TOOGLE_LED 60].
Proof.
  destruct (each_press_one_command esp_portMAX_DELAY esp_portTICK_PERIOD_MS
              uint8_bits
              [mkWake BUTTON_0 0; mkWake BUTTON_1 4; mkWake BUTTON_0 4]
              stale_cmd sample_system _ _ 0 (xQueueCreate RX_QUEUE_LEN)
              eq_refl eq_refl (or_introl eq_refl)
              sample_connected_online eq_refl
              ltac:(vm_compute; discriminate))
    as (sys1 & Hrun & Hq & _).
  exists sys1. split; [exact Hrun | exact Hq].
Defined.

Lemma init_remote_switch_OK_witness :
  init_remote_switch BUTTON_1 (Switch.power_on 2 sample_buttons sample_boot)
  = Done Switch.CORE_REMOTE_SWITCH_OK
      (Switch.mkSystem
         [Switch.mkInfo 0 None None;
          Switch.mkInfo 0 (Some 0%nat) (Some (button_semaphore 0))]
         0 sample_buttons
         (with_kernel (mkKernel [0%nat] 1 6) sample_boot)).
Proof.
  exact (init_remote_switch_OK BUTTON_1 (Switch.power_on 2 sample_buttons sample_boot)
           (Switch.mkInfo 0 None None) 6 eq_refl
           ltac:(unfold BUTTON_1; lia) eq_refl eq_refl).
Defined.

Lemma init_remote_switch_failure_witness :
  exists sys1,
    init_remote_switch BUTTON_0
      (Switch.with_tcp (with_kernel (mkKernel [1%nat; 0%nat] 2 1) sample_connected)
                       sample_system)
    = Done Switch.CORE_REMOTE_SWITCH_INIT_ERR sys1 /\
    task_alive (kernel (Switch.tcp sys1)) 1 = false.
Proof.
  pose (sys0 := Switch.with_tcp
                  (with_kernel (mkKernel [1%nat; 0%nat] 2 1) sample_connected)
                  sample_system).
  pose (sys1 := final_system (init_remote_switch BUTTON_0 sys0) sys0).
  assert (Hinit : init_remote_switch BUTTON_0 sys0
                  = Done Switch.CORE_REMOTE_SWITCH_INIT_ERR sys1)
    by (vm_compute; reflexivity).
  exists sys1. split; [exact Hinit |].
  destruct (init_remote_switch_failure BUTTON_0 sys0 sys1 _ _
              ltac:(unfold BUTTON_0; lia) eq_refl Hinit ltac:(discriminate))
    as (_ & [(Hb & _) | (_ & _ & _ & Ht)]).
  - exfalso. apply Hb. reflexivity.
  - exact (proj2 Ht).
Defined.




Lemma switch_run_uses_first_entry_only_witness :
  exists cmd1 sys1,
    switch_run esp_portMAX_DELAY esp_portTICK_PERIOD_MS uint8_bits
      [Press BUTTON_1; Turn 3; Press BUTTON_1] stale_cmd sample_system
    = Done cmd1 sys1 /\
    tl (Switch.remote_switches_infos sys1) = [Switch.mkInfo 0 None None].
Proof.
  pose (o := switch_run esp_portMAX_DELAY esp_portTICK_PERIOD_MS uint8_bits
               [Press BUTTON_1; Turn 3; Press BUTTON_1] stale_cmd sample_system).
  pose (sys1 := final_system o sample_system).
  assert (Hrun : o = Done (mkCmd LED_0 SET_PWM 50) sys1) by (vm_compute; reflexivity).
  exists (mkCmd LED_0 SET_PWM 50), sys1. split; [exact Hrun |].
  exact (proj1 (switch_run_uses_first_entry_only esp_portMAX_DELAY
                  esp_portTICK_PERIOD_MS uint8_bits _ _ _ _ _ Hrun)).
Defined.

Lemma stop_then_start_client_witness :
  exists sys1 sys2,
    remote_switch_stop_client
      (Switch.with_tcp sample_three_queued sample_system)
    = Done Switch.CORE_REMOTE_SWITCH_OK sys1 /\
    remote_switch_start_client esp_portMAX_DELAY esp_portTICK_PERIOD_MS
      [[IP_event IP_EVENT_STA_GOT_IP]] sys1
    = Done Switch.CORE_REMOTE_SWITCH_OK sys2 /\
    queued (Switch.tcp sys2) = [].
Proof.
  pose (sys0 := Switch.with_tcp sample_three_queued sample_system).
  pose (sys1 := final_system (remote_switch_stop_client sys0) sys0).
  pose (sys2 := final_system
                  (remote_switch_start_client esp_portMAX_DELAY esp_portTICK_PERIOD_MS
                     [[IP_event IP_EVENT_STA_GOT_IP]] sys1) sys1).
  assert (Hstop : remote_switch_stop_client sys0
                  = Done Switch.CORE_REMOTE_SWITCH_OK sys1)
    by (vm_compute; reflexivity).
  assert (Hstart : remote_switch_start_client esp_portMAX_DELAY esp_portTICK_PERIOD_MS
                     [[IP_event IP_EVENT_STA_GOT_IP]] sys1
                   = Done Switch.CORE_REMOTE_SWITCH_OK sys2)
    by (vm_compute; reflexivity).
  exists sys1, sys2.
  destruct (stop_then_start_client esp_portMAX_DELAY esp_portTICK_PERIOD_MS
              _ sys0 sys1 sys2 _ _ Hstop Hstart) as (_ & _ & Hok & _).
  destruct (Hok eq_refl) as (_ & Hq & _).
  split; [exact Hstop | split; [exact Hstart | exact Hq]].
Defined.
